(** * Maker chips: a shallow embedding of the disk geometry, the shape
    assembly and the 3MF extruder assignment.

    Numbers of the TypeScript sources are modelled as real numbers (the
    floating-point rounding of JavaScript is not modelled).  The solid
    modelling kernel (manifold-3d) is an external collaborator: each of its
    calls is a constructor of [CrossSection] or [Manifold], so that a value
    records exactly how it was built, and [denoteCS] / [denoteM] give the
    idealised point sets of these constructions (circles as exact discs,
    revolutions as exact solids of revolution). *)

From Stdlib Require Import Reals Lra Psatz List String Ascii Bool Arith Lia Classical_Prop.
Import ListNotations.
Open Scope R_scope.

(* ------------------------------------------------------------------ *)
(** ** Kernel: the calls of the manifold-3d API used by the sources *)

Definition Vec2 : Type := (R * R)%type.
Definition Vec3 : Type := (R * R * R)%type.

Inductive CrossSection : Type :=
| CSCircle (radius : R) (segments : nat)            (* CrossSection.circle *)
| CSSquare (size : Vec2) (center : bool)           (* CrossSection.square *)
| CSPolygons (polys : list (list Vec2))     (* new CrossSection(polys, 'EvenOdd') *)
| CSTranslate (c : CrossSection) (v : Vec2)         (* .translate *)
| CSScale (c : CrossSection) (v : Vec2)             (* .scale *)
| CSAdd (a b : CrossSection)                        (* .add *)
| CSSimplify (c : CrossSection) (eps : R).          (* .simplify *)

Inductive Manifold : Type :=
| MRevolve (c : CrossSection) (segments : nat)      (* .revolve; 0 = default *)
| MExtrude (c : CrossSection) (height : R)          (* .extrude *)
| MTranslate (m : Manifold) (v : Vec3)              (* .translate *)
| MMirror (m : Manifold) (normal : Vec3)            (* .mirror *)
| MSubtract (a b : Manifold).                       (* .subtract *)

(* ------------------------------------------------------------------ *)
(** ** src/disk.ts *)

Module Disk.

Definition REVOLVE_SEGMENTS : nat := 180.

(** [Math.min] on non-NaN numbers. *)
Definition Math_min (a b : R) : R := if Rle_dec a b then a else b.

(** [generateDiskProfile] *)
Definition generateDiskProfile (radius roundingRadius height : R) : CrossSection :=
  let clampedRounding := Math_min roundingRadius (height / 2) in
  let circle1 := CSTranslate (CSCircle clampedRounding 24)
                   (radius - clampedRounding, clampedRounding) in
  let circle2 := CSTranslate (CSCircle clampedRounding 24)
                   (radius - clampedRounding, height - clampedRounding) in
  let fillRect := CSTranslate (CSSquare (clampedRounding, height - clampedRounding * 2) true)
                    (radius - clampedRounding / 2, height / 2) in
  let fillRect2 := CSSquare (radius - clampedRounding, height) false in
  CSAdd (CSAdd (CSAdd circle1 circle2) fillRect) fillRect2.

(** [roundedDisk] *)
Definition roundedDisk (radius roundingRadius height : R) : Manifold :=
  MRevolve (generateDiskProfile radius roundingRadius height) REVOLVE_SEGMENTS.

(** [roundDiskEdges] *)
Definition roundDiskEdges (original : Manifold) (radius roundingRadius height : R) : Manifold :=
  let offset := 10 in
  let largerDisk := MRevolve (CSSquare (radius + offset, height + offset) false) 0 in
  let roundedDiskShape := roundedDisk radius roundingRadius height in
  let roundedHoleShape := MSubtract largerDisk roundedDiskShape in
  MSubtract original roundedHoleShape.

(** [generateCenterDisk] *)
Definition generateCenterDisk (centerCircleRadius height : R) : Manifold :=
  MExtrude (CSCircle centerCircleRadius 64) height.

(** The radii of all [CrossSection.circle] calls in a construction, in order. *)
Fixpoint circleRadii (c : CrossSection) : list R :=
  match c with
  | CSCircle r _ => [r]
  | CSSquare _ _ | CSPolygons _ => []
  | CSTranslate c _ | CSScale c _ | CSSimplify c _ => circleRadii c
  | CSAdd a b => circleRadii a ++ circleRadii b
  end.

End Disk.

(* ------------------------------------------------------------------ *)
(** ** Idealised point-set semantics of the kernel constructions *)

Module Geom.

Definition Set2 : Type := R -> R -> Prop.
Definition Set3 : Type := R -> R -> R -> Prop.

Definition v3x (v : Vec3) : R := fst (fst v).
Definition v3y (v : Vec3) : R := snd (fst v).
Definition v3z (v : Vec3) : R := snd v.

(** Does the edge [a -> b] cross the horizontal ray going right from [(px, py)]? *)
Definition edgeCrosses (px py : R) (a b : Vec2) : bool :=
  let '(ax, ay) := a in
  let '(bx, by_) := b in
  if Bool.eqb (if Rlt_dec py ay then true else false)
              (if Rlt_dec py by_ then true else false)
  then false
  else if Rlt_dec px (ax + (py - ay) * (bx - ax) / (by_ - ay)) then true else false.

(** Number of edges of the closed polygon [first :: rest] crossed by that ray. *)
Fixpoint crossingsFrom (px py : R) (first prev : Vec2) (rest : list Vec2) : nat :=
  match rest with
  | [] => if edgeCrosses px py prev first then 1 else 0
  | p :: rest' => (if edgeCrosses px py prev p then 1 else 0) + crossingsFrom px py first p rest'
  end%nat.

Definition crossings (px py : R) (poly : list Vec2) : nat :=
  match poly with
  | [] => 0%nat
  | p :: rest => crossingsFrom px py p p rest
  end.

(** Even-odd fill rule over a set of polygons. *)
Definition evenOddInside (ps : list (list Vec2)) (x y : R) : Prop :=
  Nat.odd (fold_right (fun poly n => (crossings x y poly + n)%nat) 0%nat ps) = true.

(** Point set of a cross-section.  Circles are exact discs (the kernel
    inscribes a regular polygon of [segments] sides) and [simplify] is the
    identity (the kernel drops vertices within [eps]). *)
Fixpoint denoteCS (c : CrossSection) : Set2 :=
  match c with
  | CSCircle r _ => fun x y => 0 < r /\ x * x + y * y <= r * r
  | CSSquare (w, h) false => fun x y => 0 <= x <= w /\ 0 <= y <= h
  | CSSquare (w, h) true => fun x y => - (w / 2) <= x <= w / 2 /\ - (h / 2) <= y <= h / 2
  | CSPolygons ps => evenOddInside ps
  | CSTranslate c (a, b) => fun x y => denoteCS c (x - a) (y - b)
  | CSScale c (sx, sy) => fun x y => exists x0 y0, denoteCS c x0 y0 /\ x = sx * x0 /\ y = sy * y0
  | CSAdd a b => fun x y => denoteCS a x y \/ denoteCS b x y
  | CSSimplify c _ => denoteCS c
  end.

(** Reflection across the plane through the origin with normal [n]. *)
Definition reflect (n : Vec3) (x y z : R) : Vec3 :=
  let '((nx, ny), nz) := n in
  let k := 2 * (x * nx + y * ny + z * nz) / (nx * nx + ny * ny + nz * nz) in
  ((x - k * nx, y - k * ny), z - k * nz).

(** Point set of a solid.  A revolution sweeps the part [x >= 0] of the
    profile around the profile's y axis, which becomes the z axis.  An
    extrusion to a height [<= 0] is empty, as the kernel returns an empty
    manifold for it. *)
Fixpoint denoteM (m : Manifold) : Set3 :=
  match m with
  | MRevolve c _ => fun x y z => denoteCS c (sqrt (x * x + y * y)) z
  | MExtrude c h => fun x y z => 0 < h /\ denoteCS c x y /\ 0 <= z <= h
  | MTranslate m (a, b, c) => fun x y z => denoteM m (x - a) (y - b) (z - c)
  | MMirror m n =>
      fun x y z => let '((nx, ny), nz) := n in
        nx * nx + ny * ny + nz * nz <> 0 /\
        let '((x', y'), z') := reflect n x y z in denoteM m x' y' z'
  | MSubtract a b => fun x y z => denoteM a x y z /\ ~ denoteM b x y z
  end.

(** Axis-aligned rectangles and boxes as the kernel reports them. *)
Record Rect := { rmin : Vec2; rmax : Vec2 }.
Record Box := { bmin : Vec3; bmax : Vec3 }.

(** [b] is the bounding box of the point set [S]: it contains [S] and each
    of its faces is touched by a point of [S]. *)
Definition IsRect (S : Set2) (b : Rect) : Prop :=
  (forall x y, S x y -> fst (rmin b) <= x <= fst (rmax b) /\ snd (rmin b) <= y <= snd (rmax b)) /\
  (exists y, S (fst (rmin b)) y) /\ (exists y, S (fst (rmax b)) y) /\
  (exists x, S x (snd (rmin b))) /\ (exists x, S x (snd (rmax b))).

Definition InBox (b : Box) (x y z : R) : Prop :=
  v3x (bmin b) <= x <= v3x (bmax b) /\ v3y (bmin b) <= y <= v3y (bmax b) /\
  v3z (bmin b) <= z <= v3z (bmax b).

Definition IsBox (S : Set3) (b : Box) : Prop :=
  (forall x y z, S x y z -> InBox b x y z) /\
  (exists y z, S (v3x (bmin b)) y z) /\ (exists y z, S (v3x (bmax b)) y z) /\
  (exists x z, S x (v3y (bmin b)) z) /\ (exists x z, S x (v3y (bmax b)) z) /\
  (exists x y, S x y (v3z (bmin b))) /\ (exists x y, S x y (v3z (bmax b))).

(** Two boxes intersect. *)
Definition BoxesMeet (a b : Box) : Prop :=
  exists x y z, InBox a x y z /\ InBox b x y z.

End Geom.

(* ------------------------------------------------------------------ *)
(** ** JavaScript values, exceptions and the console *)

Module JS.

(** Results of an async call: a value, or a thrown error (its message). *)
Inductive Exn (A : Type) : Type :=
| Ok (a : A)
| Throw (err : string).
Arguments Ok {A} a.
Arguments Throw {A} err.

(** Lines written by [console.error(label, error)]. *)
Definition Log : Type := list (string * string).

(** Async code that may throw and writes to the console. *)
Definition M (A : Type) : Type := Log -> Exn A * Log.

Definition ret {A} (a : A) : M A := fun l => (Ok a, l).

Definition bind {A B} (m : M A) (k : A -> M B) : M B :=
  fun l => match m l with
           | (Ok a, l') => k a l'
           | (Throw e, l') => (Throw e, l')
           end.

Definition throw {A} (e : string) : M A := fun l => (Throw e, l).

(** [try { m } catch (error) { h(error) }] *)
Definition try_catch {A} (m : M A) (h : string -> M A) : M A :=
  fun l => match m l with
           | (Ok a, l') => (Ok a, l')
           | (Throw e, l') => h e l'
           end.

Definition console_error (label err : string) : M unit :=
  fun l => (Ok tt, l ++ [(label, err)]).

(** The values [obj[key]] can produce for the objects used here. *)
Inductive JSValue : Type :=
| JUndefined
| JString (s : string)
| JFunction (name : string)
| JObject.

(** [!!v] *)
Definition truthy (v : JSValue) : bool :=
  match v with
  | JUndefined => false
  | JString s => negb (String.eqb s EmptyString)
  | JFunction _ | JObject => true
  end.

(** The own and inherited properties of [Object.prototype]: every plain
    object literal answers these keys through its prototype chain. *)
Definition objectPrototypeMethods : list string :=
  ["constructor"; "hasOwnProperty"; "isPrototypeOf"; "propertyIsEnumerable";
   "toLocaleString"; "toString"; "valueOf"; "__defineGetter__";
   "__defineSetter__"; "__lookupGetter__"; "__lookupSetter__"]%string.

(** [obj[key]] on a plain object literal whose own properties are the
    string-valued [own]. *)
Definition objectLookup (own : list (string * string)) (key : string) : JSValue :=
  match find (fun kv => String.eqb (fst kv) key) own with
  | Some (_, v) => JString v
  | None =>
      if String.eqb key "__proto__" then JObject
      else if existsb (String.eqb key) objectPrototypeMethods then JFunction key
      else JUndefined
  end.

(** [Object.keys(obj)] *)
Definition objectKeys (own : list (string * string)) : list string := map fst own.

(** Decimal rendering of a natural number, as template literals do. *)
Fixpoint natToStringAux (fuel n : nat) (acc : string) : string :=
  match fuel with
  | O => acc
  | S f =>
      let acc' := String (ascii_of_nat (48 + n mod 10)) acc in
      if (n <? 10)%nat then acc' else natToStringAux f (n / 10) acc'
  end.

Definition natToString (n : nat) : string := natToStringAux (S n) n EmptyString.

End JS.

Notation "x <- m ;; k" := (JS.bind m (fun x => k))
  (at level 61, m at next level, right associativity).

(* ------------------------------------------------------------------ *)
(** ** Parameters (src/unnamed/part_002: params.ts, and the embedded
    sub-maker settings read by src/src/assembly.ts and cli.ts) *)

Module Params.

Record QrCodeParams := {
  qr_text : string;
  qr_size : option R;            (* [size], may be missing *)
  qr_extrudeDepth : option R
}.

Record ImageExtrudeParams := {
  img_mode : string;
  img_height : option R;
  img_maxWidth : option R
}.

(** [{ enabled, showSettings, params }] of an embedded maker. *)
Record EmbeddedSettings (P : Type) := {
  enabled : bool;
  settings_params : P
}.
Arguments enabled {P}.
Arguments settings_params {P}.

Record MakerChipParams := {
  radius : R;
  height : R;
  roundingRadius : R;
  centerCircleRadius : R;
  assemblyType : string;
  markings : string;
  qrCodeSettings : option (EmbeddedSettings QrCodeParams);
  imageExtrudeSettings : option (EmbeddedSettings ImageExtrudeParams)
}.

(** [{ ...params, assemblyType: t }] *)
Definition withAssemblyType (p : MakerChipParams) (t : string) : MakerChipParams :=
  {| radius := radius p; height := height p; roundingRadius := roundingRadius p;
     centerCircleRadius := centerCircleRadius p; assemblyType := t;
     markings := markings p; qrCodeSettings := qrCodeSettings p;
     imageExtrudeSettings := imageExtrudeSettings p |}.

End Params.

(* ------------------------------------------------------------------ *)
(** ** The external collaborators the sources call *)

(** The kernel's bounding-box queries, the SVG sampler, the contents of
    the embedded SVG files and the two embedded makers. *)
Class Env := {
  cs_bounds : CrossSection -> Geom.Rect;                     (* CrossSection.bounds() *)
  m_boundingBox : Manifold -> Geom.Box;                      (* Manifold.boundingBox() *)
  svgToPolygons : JS.JSValue -> R -> JS.M (list (list Vec2));   (* @cadit-app/svg-sampler *)
  svgSource : string -> string;                              (* text of each embedded SVG *)
  qrCodeMaker : Params.QrCodeParams -> JS.M (option Manifold);          (* @cadit-app/qr-code *)
  imageExtrudeMaker : Params.ImageExtrudeParams -> JS.M (option Manifold) (* @cadit-app/image-extrude *)
}.

(* ------------------------------------------------------------------ *)
(** ** src/unnamed/part_001 (utils.ts) and the embedded SVG registry *)

Module Utils.
Import JS.

(** The names of the embedded patterns. *)
Definition patternNames : list string :=
  ["makerChipV1"; "makerChipV2"; "makerChipV3"; "makerChipV4"; "makerChipV5";
   "makerChipV6"; "makerChipV7"; "makerChipV8"; "makerChipV9"; "makerChipV10";
   "makerChipV11"; "makerChipV12"; "makerChipV13"; "makerChipV14"; "makerChipV15";
   "makerChipV16"; "makerChipV17"; "makerChipV18"; "makerChipV19"; "makerChipV20"]%string.

(** Modelled from the spec: [embeddedSvgs] of embeddedSvgs.ts, which is not
    among the sources.  It is the module-level registry of named patterns
    (a plain object keyed by pattern name, §9 of the spec), whose keys are
    the 20 pattern identifiers listed by params.ts and the README. *)
Definition embeddedSvgs `{Env} : list (string * string) :=
  map (fun n => (n, svgSource n)) patternNames.

(** [parseSvgToCrossSection] *)
Definition parseSvgToCrossSection `{Env} (shapeName : string) (maxError : R) : M CrossSection :=
  let svgContent := objectLookup embeddedSvgs shapeName in
  if negb (truthy svgContent) then
    throw ("Unknown shape: " ++ shapeName ++ ". Available shapes: "
           ++ String.concat ", " (objectKeys embeddedSvgs))%string
  else
    polygons <- svgToPolygons svgContent maxError ;;
    let flippedPolygons := map (fun polygon => map (fun '(x, y) => (x, - y)) polygon) polygons in
    ret (CSSimplify (CSPolygons flippedPolygons) maxError).

(** The default [maxError] of 0.01. *)
Definition defaultMaxError : R := 1 / 100.

End Utils.

(* ------------------------------------------------------------------ *)
(** ** src/unnamed/part_002 (crossSectionUtils.ts) *)

Module CrossSectionUtils.
Import Geom.

(** [scaleToSizeAndCenter] *)
Definition scaleToSizeAndCenter `{Env} (crossSection : CrossSection) (targetWidth targetHeight : R)
  : CrossSection :=
  let bounds := cs_bounds crossSection in
  let currentWidth := fst (rmax bounds) - fst (rmin bounds) in
  let currentHeight := snd (rmax bounds) - snd (rmin bounds) in
  if Req_EM_T currentWidth 0 then crossSection
  else if Req_EM_T currentHeight 0 then crossSection
  else
    let scaleX := targetWidth / currentWidth in
    let scaleY := targetHeight / currentHeight in
    let scale := Disk.Math_min scaleX scaleY in
    let scaled := CSScale crossSection (scale, scale) in
    let scaledBounds := cs_bounds scaled in
    let scaledWidth := fst (rmax scaledBounds) - fst (rmin scaledBounds) in
    let scaledHeight := snd (rmax scaledBounds) - snd (rmin scaledBounds) in
    let offsetX := - fst (rmin scaledBounds) - scaledWidth / 2 in
    let offsetY := - snd (rmin scaledBounds) - scaledHeight / 2 in
    CSTranslate scaled (offsetX, offsetY).

End CrossSectionUtils.

(* ------------------------------------------------------------------ *)
(** ** src/src/disk.ts, continued: the marking *)

Module Marking.
Import JS.

(** [generateMarkingShape] *)
Definition generateMarkingShape `{Env} (shapeName : string) (radius roundingRadius height : R)
  : M Manifold :=
  shape <- Utils.parseSvgToCrossSection shapeName Utils.defaultMaxError ;;
  let sizeOffset := 1 / 10 in
  let sizedShape := CrossSectionUtils.scaleToSizeAndCenter shape
                      (radius * 2 + sizeOffset) (radius * 2 + sizeOffset) in
  let extrudedShape := MExtrude sizedShape height in
  let roundedShape := Disk.roundDiskEdges extrudedShape radius roundingRadius height in
  ret roundedShape.

End Marking.

(* ------------------------------------------------------------------ *)
(** ** src/src/assembly.ts *)

Module Assembly.
Import JS Params Geom.

(** [if (settings?.enabled) { try { x = await maker(settings.params) }
    catch (error) { console.error(label, error) } }] *)
Definition generateEmbedded `{Env} {P : Type} (settings : option (EmbeddedSettings P))
  (maker : P -> M (option Manifold)) (label : string) : M (option Manifold) :=
  match settings with
  | Some s =>
      if enabled s then
        try_catch (maker (settings_params s))
                  (fun error => _ <- console_error label error ;; ret None)
      else ret None
  | None => ret None
  end.

(** [x || 18] for the QR size. *)
Definition sizeOr18 (size : option R) : R :=
  match size with
  | Some s => if Req_EM_T s 0 then 18 else s
  | None => 18
  end.

(** The [flat] layout. *)
Definition flatLayout `{Env} (params : MakerChipParams)
  (disk marking centerDisk : Manifold) (qrCode imageExtrude : option Manifold) : list Manifold :=
  let offset := 2 * radius params + 1 in
  [disk; MTranslate marking (offset, 0, 0); MTranslate centerDisk (0, offset, 0)]
  ++ match qrCode with
     | Some qr =>
         (* [qrCodeSettings] is present whenever a QR code was generated *)
         let qrSize := match qrCodeSettings params with
                       | Some s => sizeOr18 (qr_size (settings_params s))
                       | None => 18
                       end in
         [MTranslate qr (- (radius params + qrSize / 2 + 1), 0, 0)]
     | None => []
     end
  ++ match imageExtrude with
     | Some im =>
         let bounds := m_boundingBox im in
         let h := v3y (bmax bounds) - v3y (bmin bounds) in
         [MTranslate im (0, - (radius params + h / 2 + 1), 0)]
     | None => []
     end.

(** The [printable] layout. *)
Definition printableLayout `{Env} (params : MakerChipParams)
  (disk marking centerDisk : Manifold) (qrCode imageExtrude : option Manifold) : list Manifold :=
  [disk; centerDisk; marking]
  ++ match qrCode with
     | Some qr =>
         let zTranslate := height params - v3z (bmax (m_boundingBox qr)) in
         [MTranslate qr (0, 0, zTranslate)]
     | None => []
     end
  ++ match imageExtrude with
     | Some im => [MMirror im (1, 0, 0)]
     | None => []
     end.

(** [assembleMakerchipShapes] *)
Definition assembleMakerchipShapes `{Env} (params : MakerChipParams) (assemblyType : string)
  : M (list Manifold) :=
  let disk := Disk.roundedDisk (radius params) (roundingRadius params) (height params) in
  marking <- Marking.generateMarkingShape (markings params) (radius params)
               (roundingRadius params) (height params) ;;
  let centerDisk := Disk.generateCenterDisk (centerCircleRadius params) (height params) in
  qrCode <- generateEmbedded (qrCodeSettings params) qrCodeMaker "Error generating QR code:" ;;
  imageExtrude <- generateEmbedded (imageExtrudeSettings params) imageExtrudeMaker
                    "Error generating image extrude:" ;;
  ret (if String.eqb assemblyType "flat" then
         flatLayout params disk marking centerDisk qrCode imageExtrude
       else if String.eqb assemblyType "printable" then
         printableLayout params disk marking centerDisk qrCode imageExtrude
       else []).

End Assembly.

(* ------------------------------------------------------------------ *)
(** ** src/src/threeMfExport.ts *)

Module ThreeMf.
Import JS Params.
Local Open Scope string_scope.

Definition nl : string := String (ascii_of_nat 10) EmptyString.
Definition dq : string := String (ascii_of_nat 34) EmptyString.

(** [key="value"] *)
Definition attr (key value : string) : string := key ++ "=" ++ dq ++ value ++ dq.

(** [const extruderForPart = (i) => (i < 4 ? i + 1 : 4)] *)
Definition extruderForPart (i : nat) : nat := if (i <? 4)%nat then (i + 1)%nat else 4%nat.

(** The text appended to [partsXml] for part [i]. *)
Definition partXml (i : nat) : string :=
  nl ++ "    <part " ++ attr "id" (natToString (i + 1)) ++ " " ++ attr "subtype" "normal_part" ++ ">"
  ++ nl ++ "      <metadata " ++ attr "key" "name" ++ " "
        ++ attr "value" ("Makerchip-Assembly_" ++ natToString (i + 1)) ++ "/>"
  ++ nl ++ "      <metadata " ++ attr "key" "extruder" ++ " "
        ++ attr "value" (natToString (extruderForPart i)) ++ "/>"
  ++ nl ++ "    </part>".

(** [for (let i = 0; i < partsCount; i++) partsXml += ...] *)
Definition partsXmlLoop (partsCount : nat) : string :=
  fold_left (fun acc i => acc ++ partXml i) (seq 0 partsCount) EmptyString.

(** [generateModelSettingsConfig] *)
Definition generateModelSettingsConfig (partsCount : nat) : string :=
  let partsXml := partsXmlLoop partsCount in
  "<?xml " ++ attr "version" "1.0" ++ " " ++ attr "encoding" "UTF-8" ++ "?>"
  ++ nl ++ "<config>"
  ++ nl ++ "  <object " ++ attr "id" (natToString (partsCount + 1)) ++ ">"
  ++ nl ++ "    <metadata " ++ attr "key" "name" ++ " " ++ attr "value" "Makerchip-Assembly" ++ "/>"
  ++ nl ++ "    <metadata " ++ attr "key" "extruder" ++ " " ++ attr "value" "1" ++ "/>"
  ++ nl ++ "    " ++ partsXml
  ++ nl ++ "  </object>"
  ++ nl ++ "</config>"
  ++ nl.

(** One entry of [meshes]: its id, the solid whose [getMesh()] gives the
    vertices and indices, and its name. *)
Record MeshEntry := { mesh_id : string; mesh_solid : Manifold; mesh_name : string }.

(** The argument of [to3dmodel] (an external XML writer). *)
Record ThreeMfModel := {
  tm_meshes : list MeshEntry;
  tm_components : list (nat * list string * string);   (* id, children object ids, name *)
  tm_items : list nat;
  tm_precision : nat;
  tm_header : list (string * string)
}.

(** The files of the zip archive ([zipSync] is external): the XML model
    written by [to3dmodel], the content-types and relationship files of
    the 3mf-export package (named by that package), and text files. *)
Inductive ZipEntry :=
| ModelXml (path : string) (model : ThreeMfModel)
| ContentTypes
| RelThumbnail (modelPath : string)
| TextFile (path : string) (text : string).

Record ExportResult := {
  mimeType : string;
  fileName : string;
  data : list ZipEntry
}.

(** Everything [threeMfExport] does after the assembly. *)
Definition packThreeMf (shapes : list Manifold) : ExportResult :=
  let meshes := map (fun '(i, shape) =>
                       {| mesh_id := natToString (i + 1); mesh_solid := shape;
                          mesh_name := "Makerchip-Part-" ++ natToString (i + 1) |})
                    (combine (seq 0 (List.length shapes)) shapes) in
  let components := [(List.length meshes + 1, map mesh_id meshes, "Makerchip-Assembly")%nat] in
  let items := map (fun '(id, _, _) => id) components in
  let header := [("unit", "millimeter"); ("title", "CADit Makerchip");
                 ("description", "Makerchip 3MF export"); ("application", "CADit")] in
  let to3mf := {| tm_meshes := meshes; tm_components := components; tm_items := items;
                  tm_precision := 7; tm_header := header |} in
  let modelSettingsXml := generateModelSettingsConfig (List.length meshes) in
  {| mimeType := "model/3mf"; fileName := "makerchip.3mf";
     data := [ModelXml "3D/3dmodel.model" to3mf;
              ContentTypes;
              RelThumbnail "3D/3dmodel.model";
              TextFile "Metadata/model_settings.config" modelSettingsXml] |}.

(** [threeMfExport] *)
Definition threeMfExport `{Env} (params : MakerChipParams) : M ExportResult :=
  shapes <- Assembly.assembleMakerchipShapes params "printable" ;;
  ret (packThreeMf shapes).

End ThreeMf.

(* ------------------------------------------------------------------ *)
(** ** Concrete inputs *)

Module Samples.
Import JS Params Geom.

(** A QR code as its maker builds one: an 18 mm plate, 1 mm thick. *)
Definition qrPlate : Manifold := MExtrude (CSSquare (18, 18) true) 1.

(** An image extrusion: a 10 x 6 mm plate, 1 mm thick. *)
Definition imagePlate : Manifold := MExtrude (CSSquare (10, 6) true) 1.

(** A unit-square pattern, before the Y flip. *)
Definition squarePattern : list (list Vec2) := [[(0, 0); (1, 0); (1, 1); (0, 1)]].

Definition plateBox : Box := {| bmin := (-9, -9, 0); bmax := (9, 9, 1) |}.

(** Collaborators that all succeed. *)
Definition okEnv : Env := {|
  cs_bounds := fun _ => {| rmin := (-1, -1); rmax := (1, 1) |};
  m_boundingBox := fun _ => plateBox;
  svgToPolygons := fun _ _ => ret squarePattern;
  svgSource := fun n => ("<svg>" ++ n ++ "</svg>")%string;
  qrCodeMaker := fun _ => ret (Some qrPlate);
  imageExtrudeMaker := fun _ => ret (Some imagePlate)
|}.

(** The same, with QR and image makers that throw. *)
Definition failingEnv : Env := {|
  cs_bounds := fun _ => {| rmin := (-1, -1); rmax := (1, 1) |};
  m_boundingBox := fun _ => plateBox;
  svgToPolygons := fun _ _ => ret squarePattern;
  svgSource := fun n => ("<svg>" ++ n ++ "</svg>")%string;
  qrCodeMaker := fun _ => throw "Text too long for QR code";
  imageExtrudeMaker := fun _ => throw "Invalid image data"
|}.

Definition qrSettings (on : bool) : option (EmbeddedSettings QrCodeParams) :=
  Some {| enabled := on;
          settings_params := {| qr_text := "https://cadit.app"; qr_size := Some 18;
                                qr_extrudeDepth := Some 1 |} |}.

Definition imageSettings (on : bool) : option (EmbeddedSettings ImageExtrudeParams) :=
  Some {| enabled := on;
          settings_params := {| img_mode := "sample"; img_height := Some 1;
                                img_maxWidth := Some 18 |} |}.

(** The CLI defaults (radius 20, height 3, rounding 1, center 14). *)
Definition chipParams (center : R) (t markingName : string) (qrOn imageOn : bool)
  : MakerChipParams :=
  {| radius := 20; height := 3; roundingRadius := 1; centerCircleRadius := center;
     assemblyType := t; markings := markingName;
     qrCodeSettings := qrSettings qrOn; imageExtrudeSettings := imageSettings imageOn |}.

End Samples.

(* ------------------------------------------------------------------ *)
(** ** The steps of [assembleMakerchipShapes], named *)

Module Steps.
Import JS Params Geom Assembly.
Section Steps.
Context `{Env}.

(** The layout step of [assembleMakerchipShapes]. *)
Definition layoutFor (params : MakerChipParams) (t : string) (marking : Manifold)
    (qrCode imageExtrude : option Manifold) : list Manifold :=
  let disk := Disk.roundedDisk (radius params) (roundingRadius params) (height params) in
  let centerDisk := Disk.generateCenterDisk (centerCircleRadius params) (height params) in
  if String.eqb t "flat" then flatLayout params disk marking centerDisk qrCode imageExtrude
  else if String.eqb t "printable" then printableLayout params disk marking centerDisk qrCode imageExtrude
  else [].

Definition markingOf (params : MakerChipParams) : M Manifold :=
  Marking.generateMarkingShape (markings params) (radius params) (roundingRadius params) (height params).

Definition qrOf (params : MakerChipParams) : M (option Manifold) :=
  generateEmbedded (qrCodeSettings params) qrCodeMaker "Error generating QR code:".

Definition imageOf (params : MakerChipParams) : M (option Manifold) :=
  generateEmbedded (imageExtrudeSettings params) imageExtrudeMaker "Error generating image extrude:".

End Steps.
End Steps.

(* ------------------------------------------------------------------ *)
(** ** src/unnamed/part_002: the earlier [assembleMakerchipShapes] *)

(** The version of assembly.ts kept in part_002, written before the QR and
    image parts were added.  Its [MakerChipParams] has no
    [qrCodeSettings] or [imageExtrudeSettings]; those fields of the record
    are not read. *)
Module AssemblyV0.
Import JS Params.

(** [assembleMakerchipShapes] *)
Definition assembleMakerchipShapes `{Env} (params : MakerChipParams) (assemblyType : string)
  : M (list Manifold) :=
  let disk := Disk.roundedDisk (radius params) (roundingRadius params) (height params) in
  marking <- Marking.generateMarkingShape (markings params) (radius params)
               (roundingRadius params) (height params) ;;
  let centerDisk := Disk.generateCenterDisk (centerCircleRadius params) (height params) in
  ret (if String.eqb assemblyType "flat" then
         let offset := 2 * radius params + 1 in
         [disk; MTranslate marking (offset, 0, 0); MTranslate centerDisk (0, offset, 0)]
       else if String.eqb assemblyType "printable" then
         [disk; centerDisk; marking]
       else []).

End AssemblyV0.

(* ------------------------------------------------------------------ *)
(** ** src/unnamed/part_000 (main.ts) *)

Module Main.
Import JS Params.

(** [Manifold.compose(shapes)]: the shapes gathered into one solid. *)
Inductive Composed : Type :=
  | Compose (parts : list Manifold).

(** [main] of [defineParams] *)
Definition main `{Env} (params : MakerChipParams) : M Composed :=
  let assemblyType := Params.assemblyType params in
  allShapes <- Assembly.assembleMakerchipShapes params assemblyType ;;
  ret (Compose allShapes).

End Main.

(* ================================================================== *)
(** * Properties *)

(** ** Math.min *)

Lemma Math_min_Rmin (a b : R) : Disk.Math_min a b = Rmin a b.
Proof. unfold Disk.Math_min, Rmin. reflexivity. Qed.

Lemma Math_min_le_r (a b : R) : Disk.Math_min a b <= b.
Proof. unfold Disk.Math_min. destruct (Rle_dec a b); lra. Qed.

Lemma Math_min_le_l (a b : R) : Disk.Math_min a b <= a.
Proof. unfold Disk.Math_min. destruct (Rle_dec a b); lra. Qed.

Lemma Math_min_r (a b : R) : b < a -> Disk.Math_min a b = b.
Proof. unfold Disk.Math_min. destruct (Rle_dec a b); lra. Qed.

Lemma Math_min_l (a b : R) : a <= b -> Disk.Math_min a b = a.
Proof. unfold Disk.Math_min. destruct (Rle_dec a b); lra. Qed.

(** ** The disk profile (C1) *)

(** C1: for every radius, rounding radius and height, [roundedDisk]
    revolves [generateDiskProfile] with 180 segments, and the two corner
    circles of that profile have radius [min(roundingRadius, height/2)],
    which never exceeds [height/2] and is [height/2] whenever
    [roundingRadius > height/2]; both functions are total, so no rounding
    radius makes them fail. *)
Theorem generateDiskProfile_clamps_rounding (radius roundingRadius height : R) :
  let m := Disk.Math_min roundingRadius (height / 2) in
  Disk.roundedDisk radius roundingRadius height
    = MRevolve (Disk.generateDiskProfile radius roundingRadius height) 180 /\
  Disk.circleRadii (Disk.generateDiskProfile radius roundingRadius height) = [m; m] /\
  m = Rmin roundingRadius (height / 2) /\
  m <= height / 2 /\
  (height / 2 < roundingRadius -> m = height / 2).
Proof.
  intros m. split; [reflexivity|]. split; [reflexivity|].
  split; [apply Math_min_Rmin|]. split; [apply Math_min_le_r|].
  intros H. apply Math_min_r. exact H.
Qed.

(** ** Running the assembly *)

Section Run.
Context `{Env}.
Import JS Params Geom Assembly Steps.

(** What the guarded, fail-soft call of an embedded maker does. *)
Lemma generateEmbedded_cases {P : Type} (settings : option (EmbeddedSettings P))
    (maker : P -> M (option Manifold)) (label : string) (l : Log) :
  (forall s, settings = Some s -> enabled s = true ->
     (forall o l', maker (settings_params s) l = (Ok o, l') ->
        generateEmbedded settings maker label l = (Ok o, l')) /\
     (forall e l', maker (settings_params s) l = (Throw e, l') ->
        generateEmbedded settings maker label l = (Ok None, l' ++ [(label, e)]))) /\
  ((forall s, settings = Some s -> enabled s = false) ->
     generateEmbedded settings maker label l = (Ok None, l)).
Proof.
  split.
  - intros s -> Hen. unfold generateEmbedded. rewrite Hen. split.
    + intros o l' Hm. unfold try_catch. rewrite Hm. reflexivity.
    + intros e l' Hm. unfold try_catch. rewrite Hm. reflexivity.
  - intros Hoff. unfold generateEmbedded. destruct settings as [s|]; [|reflexivity].
    rewrite (Hoff s eq_refl). reflexivity.
Qed.

(** The guarded call never throws. *)
Lemma generateEmbedded_never_throws {P : Type} (settings : option (EmbeddedSettings P))
    (maker : P -> M (option Manifold)) (label : string) (l : Log) :
  exists o l', generateEmbedded settings maker label l = (Ok o, l').
Proof.
  unfold generateEmbedded, try_catch, bind, console_error, ret.
  destruct settings as [s|]; [|eauto].
  destruct (enabled s); [|eauto].
  destruct (maker (settings_params s) l) as [[o|e] l']; eauto.
Qed.

(** [assembleMakerchipShapes] succeeds exactly when the marking does, and
    then lays out the marking and the optional parts. *)
Lemma assemble_ok_iff (params : MakerChipParams) (t : string) (l l' : Log) (shapes : list Manifold) :
  assembleMakerchipShapes params t l = (Ok shapes, l') <->
  exists marking l1 q l2 i,
    markingOf params l = (Ok marking, l1) /\
    qrOf params l1 = (Ok q, l2) /\
    imageOf params l2 = (Ok i, l') /\
    shapes = layoutFor params t marking q i.
Proof.
  unfold assembleMakerchipShapes, markingOf, qrOf, imageOf, layoutFor. unfold bind at 1.
  destruct (Marking.generateMarkingShape _ _ _ _ l) as [[marking|e] l1].
  - unfold bind at 1. destruct (generateEmbedded_never_throws (qrCodeSettings params) qrCodeMaker
                "Error generating QR code:" l1) as (q & l2 & Hq).
    destruct (generateEmbedded_never_throws (imageExtrudeSettings params) imageExtrudeMaker
                "Error generating image extrude:" l2) as (i & l3 & Hi).
    rewrite Hq. unfold bind at 1. rewrite Hi. unfold ret. split.
    + intros E. inversion E; subst. exists marking, l1, q, l2, i. repeat split; auto.
    + intros (m' & l1' & q' & l2' & i' & Hm & Hq' & Hi' & ->).
      inversion Hm; subst. rewrite Hq in Hq'. inversion Hq'; subst.
      rewrite Hi in Hi'. inversion Hi'; subst. reflexivity.
  - split.
    + intros E. discriminate E.
    + intros (m' & l1' & q' & l2' & i' & Hm & _). discriminate Hm.
Qed.

(** The marking is the only step of the assembly that can throw. *)
Lemma assemble_throws_iff (params : MakerChipParams) (t : string) (l l' : Log) (e : string) :
  assembleMakerchipShapes params t l = (Throw e, l') <-> markingOf params l = (Throw e, l').
Proof.
  unfold assembleMakerchipShapes, markingOf. unfold bind at 1.
  destruct (Marking.generateMarkingShape _ _ _ _ l) as [[marking|e'] l1].
  - unfold bind at 1. destruct (generateEmbedded_never_throws (qrCodeSettings params) qrCodeMaker
                "Error generating QR code:" l1) as (q & l2 & Hq).
    destruct (generateEmbedded_never_throws (imageExtrudeSettings params) imageExtrudeMaker
                "Error generating image extrude:" l2) as (i & l3 & Hi).
    rewrite Hq. unfold bind at 1. rewrite Hi. unfold ret. split; intros E; discriminate E.
  - simpl. split; intros E; inversion E; reflexivity.
Qed.

End Run.

(** ** Bounding boxes of point sets *)

Module BoxFacts.
Import Geom.

Definition shiftBox (b : Box) (a1 a2 a3 : R) : Box :=
  {| bmin := (v3x (bmin b) + a1, v3y (bmin b) + a2, v3z (bmin b) + a3);
     bmax := (v3x (bmax b) + a1, v3y (bmax b) + a2, v3z (bmax b) + a3) |}.

Lemma IsBox_translate (S : Set3) (b : Box) (a1 a2 a3 : R) :
  IsBox S b ->
  IsBox (fun x y z => S (x - a1) (y - a2) (z - a3)) (shiftBox b a1 a2 a3).
Proof.
  intros (Hin & (y1 & z1 & H1) & (y2 & z2 & H2) & (x3 & z3 & H3) & (x4 & z4 & H4)
          & (x5 & y5 & H5) & (x6 & y6 & H6)).
  unfold IsBox, shiftBox, InBox, v3x, v3y, v3z in *; simpl in *.
  split; [|split; [|split; [|split; [|split; [|split]]]]].
  - intros x y z Hs. specialize (Hin _ _ _ Hs). lra.
  - exists (y1 + a2), (z1 + a3).
    replace (fst (fst (bmin b)) + a1 - a1) with (fst (fst (bmin b))) by ring.
    replace (y1 + a2 - a2) with y1 by ring. replace (z1 + a3 - a3) with z1 by ring. exact H1.
  - exists (y2 + a2), (z2 + a3).
    replace (fst (fst (bmax b)) + a1 - a1) with (fst (fst (bmax b))) by ring.
    replace (y2 + a2 - a2) with y2 by ring. replace (z2 + a3 - a3) with z2 by ring. exact H2.
  - exists (x3 + a1), (z3 + a3).
    replace (snd (fst (bmin b)) + a2 - a2) with (snd (fst (bmin b))) by ring.
    replace (x3 + a1 - a1) with x3 by ring. replace (z3 + a3 - a3) with z3 by ring. exact H3.
  - exists (x4 + a1), (z4 + a3).
    replace (snd (fst (bmax b)) + a2 - a2) with (snd (fst (bmax b))) by ring.
    replace (x4 + a1 - a1) with x4 by ring. replace (z4 + a3 - a3) with z4 by ring. exact H4.
  - exists (x5 + a1), (y5 + a2).
    replace (snd (bmin b) + a3 - a3) with (snd (bmin b)) by ring.
    replace (x5 + a1 - a1) with x5 by ring. replace (y5 + a2 - a2) with y5 by ring. exact H5.
  - exists (x6 + a1), (y6 + a2).
    replace (snd (bmax b) + a3 - a3) with (snd (bmax b)) by ring.
    replace (x6 + a1 - a1) with x6 by ring. replace (y6 + a2 - a2) with y6 by ring. exact H6.
Qed.

(** The faces of a bounding box lie within any bounds of its point set. *)
Lemma IsBox_faces_within (S : Set3) (b : Box) (X0 X1 Y0 Y1 : R) :
  IsBox S b ->
  (forall x y z, S x y z -> X0 <= x <= X1 /\ Y0 <= y <= Y1) ->
  X0 <= v3x (bmin b) /\ v3x (bmax b) <= X1 /\ Y0 <= v3y (bmin b) /\ v3y (bmax b) <= Y1.
Proof.
  intros (_ & (y1 & z1 & H1) & (y2 & z2 & H2) & (x3 & z3 & H3) & (x4 & z4 & H4) & _) Hw.
  apply Hw in H1. apply Hw in H2. apply Hw in H3. apply Hw in H4. lra.
Qed.

(** Boxes of two point sets, one of which lies left of (or below) the
    other, do not meet. *)
Lemma IsBox_separated_x (S T : Set3) (b c : Box) (X : R) :
  IsBox S b -> IsBox T c ->
  (forall x y z, S x y z -> x < X) -> (forall x y z, T x y z -> X <= x) ->
  ~ BoxesMeet b c.
Proof.
  intros (_ & _ & (y2 & z2 & H2) & _) (_ & (y1 & z1 & H1) & _) HS HT (x & y & z & Hb & Hc).
  apply HS in H2. apply HT in H1. unfold InBox in *. lra.
Qed.

Lemma IsBox_separated_y (S T : Set3) (b c : Box) (Y : R) :
  IsBox S b -> IsBox T c ->
  (forall x y z, S x y z -> y < Y) -> (forall x y z, T x y z -> Y <= y) ->
  ~ BoxesMeet b c.
Proof.
  intros (_ & _ & _ & _ & (x4 & z4 & H4) & _) (_ & _ & _ & (x3 & z3 & H3) & _) HS HT
         (x & y & z & Hb & Hc).
  apply HS in H4. apply HT in H3. unfold InBox in *. lra.
Qed.

(** Boxes containing two sets that share a point meet. *)
Lemma boxes_meet_of_common_point (S T : Set3) (b c : Box) (x y z : R) :
  (forall x y z, S x y z -> InBox b x y z) -> (forall x y z, T x y z -> InBox c x y z) ->
  S x y z -> T x y z -> BoxesMeet b c.
Proof. intros Hb Hc HS HT. exists x, y, z. split; auto. Qed.

End BoxFacts.

(** ** Assembly layouts (C2, C3, C9, C10) *)

Section Layouts.
Context `{Env}.
Import JS Params Geom Assembly Steps.

(** C2 (amended): the printable ShapeSet is, in this order, the disk, the
    center disk, the marking, then the QR part and then the image part
    when they were generated. *)
Theorem printable_order (p : MakerChipParams) (l l' : Log) (shapes : list Manifold) :
  assembleMakerchipShapes p "printable" l = (Ok shapes, l') ->
  exists marking l1 q l2 i,
    markingOf p l = (Ok marking, l1) /\ qrOf p l1 = (Ok q, l2) /\ imageOf p l2 = (Ok i, l') /\
    shapes =
      [Disk.roundedDisk (radius p) (roundingRadius p) (height p);
       Disk.generateCenterDisk (centerCircleRadius p) (height p);
       marking]
      ++ match q with
         | Some qr => [MTranslate qr (0, 0, height p - v3z (bmax (m_boundingBox qr)))]
         | None => []
         end
      ++ match i with
         | Some im => [MMirror im (1, 0, 0)]
         | None => []
         end.
Proof.
  intros Hrun. apply assemble_ok_iff in Hrun.
  destruct Hrun as (marking & l1 & q & l2 & i & Hm & Hq & Hi & ->).
  exists marking, l1, q, l2, i. repeat split; auto.
Qed.

(** C3 (amended): a printable ShapeSet has 3 parts, plus one when the QR
    maker was enabled and produced a solid without throwing, plus one when
    the image maker was; and when the kernel reports the QR solid's
    bounding box, the top face of the QR part lies at [z = height]. *)
Theorem printable_count_and_qr_top (p : MakerChipParams) (l l' : Log) (shapes : list Manifold) :
  assembleMakerchipShapes p "printable" l = (Ok shapes, l') ->
  exists marking l1 q l2 i,
    markingOf p l = (Ok marking, l1) /\ qrOf p l1 = (Ok q, l2) /\ imageOf p l2 = (Ok i, l') /\
    List.length shapes
      = (3 + match q with Some _ => 1 | None => 0 end
           + match i with Some _ => 1 | None => 0 end)%nat /\
    (forall qr, q = Some qr -> IsBox (denoteM qr) (m_boundingBox qr) ->
       exists part b, nth_error shapes 3 = Some part /\ IsBox (denoteM part) b /\
                      v3z (bmax b) = height p).
Proof.
  intros Hrun. apply assemble_ok_iff in Hrun.
  destruct Hrun as (marking & l1 & q & l2 & i & Hm & Hq & Hi & ->).
  exists marking, l1, q, l2, i. split; [exact Hm|]. split; [exact Hq|]. split; [exact Hi|].
  unfold layoutFor, printableLayout. simpl. split.
  - destruct q, i; reflexivity.
  - intros qr -> Hbox. eexists; eexists. split; [reflexivity|].
    split.
    + apply (BoxFacts.IsBox_translate _ _ 0 0 (height p - v3z (bmax (m_boundingBox qr)))) in Hbox.
      exact Hbox.
    + unfold BoxFacts.shiftBox, v3z. simpl. ring.
Qed.

(** C9: when the QR or the image maker is enabled and throws, the
    assembly still succeeds as soon as the marking does: the error is
    written to the console under its label, that part is absent, and the
    ShapeSet still starts with the disk, the marking and the center disk
    (placed as the layout places them). *)
Theorem optional_part_failure_is_soft (p : MakerChipParams) (t : string) (l : Log)
    (marking : Manifold) (l1 : Log) :
  (t = "flat" \/ t = "printable")%string ->
  markingOf p l = (Ok marking, l1) ->
  exists q l2 i l3,
    assembleMakerchipShapes p t l = (Ok (layoutFor p t marking q i), l3) /\
    qrOf p l1 = (Ok q, l2) /\ imageOf p l2 = (Ok i, l3) /\
    (forall s e lq, qrCodeSettings p = Some s -> enabled s = true ->
       qrCodeMaker (settings_params s) l1 = (Throw e, lq) ->
       q = None /\ l2 = lq ++ [("Error generating QR code:"%string, e)]) /\
    (forall s e li, imageExtrudeSettings p = Some s -> enabled s = true ->
       imageExtrudeMaker (settings_params s) l2 = (Throw e, li) ->
       i = None /\ l3 = li ++ [("Error generating image extrude:"%string, e)]) /\
    List.length (layoutFor p t marking q i)
      = (3 + match q with Some _ => 1 | None => 0 end
           + match i with Some _ => 1 | None => 0 end)%nat /\
    firstn 3 (layoutFor p t marking q i)
      = if String.eqb t "flat" then
          [Disk.roundedDisk (radius p) (roundingRadius p) (height p);
           MTranslate marking (2 * radius p + 1, 0, 0);
           MTranslate (Disk.generateCenterDisk (centerCircleRadius p) (height p))
                      (0, 2 * radius p + 1, 0)]
        else
          [Disk.roundedDisk (radius p) (roundingRadius p) (height p);
           Disk.generateCenterDisk (centerCircleRadius p) (height p);
           marking].
Proof.
  intros Ht Hm.
  destruct (generateEmbedded_never_throws (qrCodeSettings p) qrCodeMaker
              "Error generating QR code:" l1) as (q & l2 & Hq).
  destruct (generateEmbedded_never_throws (imageExtrudeSettings p) imageExtrudeMaker
              "Error generating image extrude:" l2) as (i & l3 & Hi).
  exists q, l2, i, l3. split.
  { apply assemble_ok_iff. exists marking, l1, q, l2, i. repeat split; auto. }
  split; [exact Hq|]. split; [exact Hi|]. split.
  { intros s e lq Hs Hen Hthrow.
    destruct (generateEmbedded_cases (qrCodeSettings p) qrCodeMaker
                "Error generating QR code:" l1) as [Hon _].
    destruct (Hon s Hs Hen) as [_ Hcatch].
    unfold qrOf in Hq. rewrite (Hcatch e lq Hthrow) in Hq. inversion Hq. auto. }
  split.
  { intros s e li Hs Hen Hthrow.
    destruct (generateEmbedded_cases (imageExtrudeSettings p) imageExtrudeMaker
                "Error generating image extrude:" l2) as [Hon _].
    destruct (Hon s Hs Hen) as [_ Hcatch].
    unfold imageOf in Hi. rewrite (Hcatch e li Hthrow) in Hi. inversion Hi. auto. }
  destruct Ht as [-> | ->]; unfold layoutFor, flatLayout, printableLayout; simpl;
    (split; [destruct q, i; reflexivity | reflexivity]).
Qed.

(** C10 (amended): for an assembly type other than "flat" and
    "printable", the assembly returns the empty ShapeSet whenever the
    marking is generated; it fails only when the marking fails, with the
    marking's error. *)
Theorem other_assembly_type_is_empty (p : MakerChipParams) (t : string) (l : Log) :
  (t <> "flat")%string -> (t <> "printable")%string ->
  (forall marking l1, markingOf p l = (Ok marking, l1) ->
     exists l', assembleMakerchipShapes p t l = (Ok [], l')) /\
  (forall e l1, markingOf p l = (Throw e, l1) ->
     assembleMakerchipShapes p t l = (Throw e, l1)).
Proof.
  intros Hf Hp. split.
  - intros marking l1 Hm.
    destruct (generateEmbedded_never_throws (qrCodeSettings p) qrCodeMaker
                "Error generating QR code:" l1) as (q & l2 & Hq).
    destruct (generateEmbedded_never_throws (imageExtrudeSettings p) imageExtrudeMaker
                "Error generating image extrude:" l2) as (i & l3 & Hi).
    exists l3. apply assemble_ok_iff. exists marking, l1, q, l2, i.
    repeat split; auto. unfold layoutFor.
    apply String.eqb_neq in Hf. apply String.eqb_neq in Hp. rewrite Hf, Hp. reflexivity.
  - intros e l1 Hm. apply assemble_throws_iff. exact Hm.
Qed.

End Layouts.

Module LayoutChecks.
Import JS Params Geom Assembly Steps Samples.

Lemma printable_order_witness :
  exists shapes l',
    @assembleMakerchipShapes okEnv (chipParams 14 "printable" "makerChipV1" true true)
      "printable" [] = (Ok shapes, l') /\
    exists marking l1 q l2 i,
      @markingOf okEnv (chipParams 14 "printable" "makerChipV1" true true) [] = (Ok marking, l1) /\
      @qrOf okEnv (chipParams 14 "printable" "makerChipV1" true true) l1 = (Ok q, l2) /\
      @imageOf okEnv (chipParams 14 "printable" "makerChipV1" true true) l2 = (Ok i, l') /\
      shapes =
        [Disk.roundedDisk 20 1 3; Disk.generateCenterDisk 14 3; marking]
        ++ match q with
           | Some qr => [MTranslate qr (0, 0, 3 - v3z (bmax (@m_boundingBox okEnv qr)))]
           | None => []
           end
        ++ match i with
           | Some im => [MMirror im (1, 0, 0)]
           | None => []
           end.
Proof.
  do 2 eexists. split.
  - reflexivity.
  - apply (@printable_order okEnv). reflexivity.
Defined.

(** The printable ShapeSet of the default chip: its second part is the
    center disk and its third the marking. *)
Lemma printable_order_counterexample :
  exists shapes l',
    @assembleMakerchipShapes okEnv (chipParams 14 "printable" "makerChipV1" false false)
      "printable" [] = (Ok shapes, l') /\
    forall marking l1,
      @markingOf okEnv (chipParams 14 "printable" "makerChipV1" false false) [] = (Ok marking, l1) ->
      firstn 3 shapes <> [Disk.roundedDisk 20 1 3; marking; Disk.generateCenterDisk 14 3].
Proof.
  do 2 eexists. split.
  - reflexivity.
  - intros marking l1 Hm. cbn in Hm. injection Hm as <- _. cbn. intros E. discriminate E.
Qed.

Lemma printable_count_and_qr_top_witness :
  exists shapes l',
    @assembleMakerchipShapes okEnv (chipParams 14 "printable" "makerChipV1" true true)
      "printable" [] = (Ok shapes, l') /\
    exists marking l1 q l2 i,
      @markingOf okEnv (chipParams 14 "printable" "makerChipV1" true true) [] = (Ok marking, l1) /\
      @qrOf okEnv (chipParams 14 "printable" "makerChipV1" true true) l1 = (Ok q, l2) /\
      @imageOf okEnv (chipParams 14 "printable" "makerChipV1" true true) l2 = (Ok i, l') /\
      List.length shapes
        = (3 + match q with Some _ => 1 | None => 0 end
             + match i with Some _ => 1 | None => 0 end)%nat /\
      (forall qr, q = Some qr -> IsBox (denoteM qr) (@m_boundingBox okEnv qr) ->
         exists part b, nth_error shapes 3 = Some part /\ IsBox (denoteM part) b /\
                        v3z (bmax b) = 3).
Proof.
  do 2 eexists. split.
  - reflexivity.
  - apply (@printable_count_and_qr_top okEnv). reflexivity.
Defined.

(** With the QR maker enabled but throwing, the printable ShapeSet has 3
    parts, not 4. *)
Lemma printable_count_counterexample :
  exists shapes l',
    @assembleMakerchipShapes failingEnv (chipParams 14 "printable" "makerChipV1" true false)
      "printable" [] = (Ok shapes, l') /\
    (exists s, qrCodeSettings (chipParams 14 "printable" "makerChipV1" true false) = Some s /\
               enabled s = true) /\
    (forall s, imageExtrudeSettings (chipParams 14 "printable" "makerChipV1" true false) = Some s ->
               enabled s = false) /\
    List.length shapes <> 4%nat.
Proof.
  do 2 eexists. split; [unfold assembleMakerchipShapes, Marking.generateMarkingShape, JS.bind, Utils.parseSvgToCrossSection; simpl; reflexivity|]. split; [eexists; split; reflexivity|]. split.
  - intros s Hs. injection Hs as <-. reflexivity.
  - cbn. discriminate.
Qed.

Lemma optional_part_failure_is_soft_witness :
  exists marking l1,
    @markingOf failingEnv (chipParams 14 "printable" "makerChipV1" true true) [] = (Ok marking, l1) /\
    exists q l2 i l3,
      @assembleMakerchipShapes failingEnv (chipParams 14 "printable" "makerChipV1" true true)
        "printable" [] = (Ok (@layoutFor failingEnv (chipParams 14 "printable" "makerChipV1" true true)
                                "printable" marking q i), l3) /\
      @qrOf failingEnv (chipParams 14 "printable" "makerChipV1" true true) l1 = (Ok q, l2) /\
      @imageOf failingEnv (chipParams 14 "printable" "makerChipV1" true true) l2 = (Ok i, l3) /\
      (forall s e lq, qrCodeSettings (chipParams 14 "printable" "makerChipV1" true true) = Some s ->
         enabled s = true -> @qrCodeMaker failingEnv (settings_params s) l1 = (Throw e, lq) ->
         q = None /\ l2 = lq ++ [("Error generating QR code:"%string, e)]) /\
      (forall s e li, imageExtrudeSettings (chipParams 14 "printable" "makerChipV1" true true) = Some s ->
         enabled s = true -> @imageExtrudeMaker failingEnv (settings_params s) l2 = (Throw e, li) ->
         i = None /\ l3 = li ++ [("Error generating image extrude:"%string, e)]) /\
      List.length (@layoutFor failingEnv (chipParams 14 "printable" "makerChipV1" true true)
                     "printable" marking q i)
        = (3 + match q with Some _ => 1 | None => 0 end
             + match i with Some _ => 1 | None => 0 end)%nat /\
      firstn 3 (@layoutFor failingEnv (chipParams 14 "printable" "makerChipV1" true true)
                  "printable" marking q i)
        = if String.eqb "printable" "flat" then
            [Disk.roundedDisk 20 1 3; MTranslate marking (2 * 20 + 1, 0, 0);
             MTranslate (Disk.generateCenterDisk 14 3) (0, 2 * 20 + 1, 0)]
          else [Disk.roundedDisk 20 1 3; Disk.generateCenterDisk 14 3; marking].
Proof.
  do 2 eexists. split.
  - reflexivity.
  - apply (@optional_part_failure_is_soft failingEnv); [right; reflexivity | reflexivity].
Defined.

Lemma other_assembly_type_is_empty_witness :
  ("stacked" <> "flat")%string /\ ("stacked" <> "printable")%string /\
  (forall marking l1,
     @markingOf okEnv (chipParams 14 "stacked" "makerChipV1" false false) [] = (Ok marking, l1) ->
     exists l', @assembleMakerchipShapes okEnv (chipParams 14 "stacked" "makerChipV1" false false)
                  "stacked" [] = (Ok [], l')) /\
  (forall e l1,
     @markingOf okEnv (chipParams 14 "stacked" "makerChipV1" false false) [] = (Throw e, l1) ->
     @assembleMakerchipShapes okEnv (chipParams 14 "stacked" "makerChipV1" false false)
       "stacked" [] = (Throw e, l1)).
Proof.
  split; [discriminate|]. split; [discriminate|].
  apply (@other_assembly_type_is_empty okEnv); discriminate.
Defined.

(** An unknown pattern name with an unrecognised assembly type: the
    assembly throws instead of returning an empty array. *)
Lemma other_assembly_type_counterexample :
  exists e l',
    @assembleMakerchipShapes okEnv (chipParams 14 "stacked" "makerChipV99" false false)
      "stacked" [] = (Throw e, l').
Proof. do 2 eexists. reflexivity. Qed.

End LayoutChecks.

(** ** 3MF export (C4) *)

Module ThreeMfFacts.
Import JS Params ThreeMf.

Lemma string_append_assoc (a b c : string) : (a ++ b ++ c = (a ++ b) ++ c)%string.
Proof. induction a as [|ch a IH]; simpl; [reflexivity | now rewrite IH]. Qed.

Lemma string_append_empty_r (a : string) : (a ++ EmptyString = a)%string.
Proof. induction a as [|ch a IH]; simpl; [reflexivity | now rewrite IH]. Qed.

Lemma fold_left_append (f : nat -> string) (l : list nat) (acc : string) :
  fold_left (fun acc i => (acc ++ f i)%string) l acc
  = (acc ++ fold_right (fun i r => (f i ++ r)%string) EmptyString l)%string.
Proof.
  revert acc. induction l as [|i l IH]; intros acc; simpl.
  - now rewrite string_append_empty_r.
  - rewrite IH. now rewrite string_append_assoc.
Qed.

(** C4: [threeMfExport] ignores [params.assemblyType] and always
    assembles the printable layout; the settings file it packs is
    [generateModelSettingsConfig] of the number of parts; that file lists
    the parts in order, the part with 0-based index [i] with extruder
    [i + 1] when [i < 4] and 4 otherwise; so five parts get the extruders
    1, 2, 3, 4, 4. *)
Theorem threeMfExport_printable_extruders :
  (forall (E : Env) (p : MakerChipParams) (t : string),
     @threeMfExport E (withAssemblyType p t) = @threeMfExport E p) /\
  (forall (E : Env) (p : MakerChipParams) (l : Log),
     @threeMfExport E p l =
       match @Assembly.assembleMakerchipShapes E p "printable" l with
       | (Ok shapes, l') => (Ok (packThreeMf shapes), l')
       | (Throw e, l') => (Throw e, l')
       end) /\
  (forall shapes : list Manifold,
     In (TextFile "Metadata/model_settings.config"
                  (generateModelSettingsConfig (List.length shapes)))
        (data (packThreeMf shapes))) /\
  (forall n : nat,
     partsXmlLoop n = fold_right (fun i r => (partXml i ++ r)%string) EmptyString (seq 0 n)) /\
  (forall i : nat, extruderForPart i = if (i <? 4)%nat then (i + 1)%nat else 4%nat) /\
  map extruderForPart (seq 0 5) = [1; 2; 3; 4; 4]%nat.
Proof.
  split; [|split; [|split; [|split; [|split]]]].
  - intros E p t. reflexivity.
  - intros E p l. unfold threeMfExport, bind, ret.
    destruct (Assembly.assembleMakerchipShapes p "printable" l) as [[shapes|e] l']; reflexivity.
  - intros shapes. unfold packThreeMf. simpl. right. right. right. left.
    rewrite length_map, length_combine, length_seq, Nat.min_id. reflexivity.
  - intros n. unfold partsXmlLoop. rewrite fold_left_append. reflexivity.
  - intros i. reflexivity.
  - reflexivity.
Qed.

End ThreeMfFacts.

(** ** Scaling a pattern to a size (C5) *)

Module ScaleFacts.
Import Geom CrossSectionUtils.

Definition rectWidth (b : Rect) : R := fst (rmax b) - fst (rmin b).
Definition rectHeight (b : Rect) : R := snd (rmax b) - snd (rmin b).

Definition scaleRect (s : R) (b : Rect) : Rect :=
  {| rmin := (s * fst (rmin b), s * snd (rmin b)); rmax := (s * fst (rmax b), s * snd (rmax b)) |}.

Definition shiftRect (a c : R) (b : Rect) : Rect :=
  {| rmin := (fst (rmin b) + a, snd (rmin b) + c); rmax := (fst (rmax b) + a, snd (rmax b) + c) |}.

Lemma IsRect_le (S : Set2) (b : Rect) :
  IsRect S b -> fst (rmin b) <= fst (rmax b) /\ snd (rmin b) <= snd (rmax b).
Proof.
  intros [Hin [[y Hy] [_ [[x Hx] _]]]].
  split.
  - destruct (Hin _ _ Hy) as [[H1 H2] _]. exact H2.
  - destruct (Hin _ _ Hx) as [_ [H1 H2]]. exact H2.
Qed.

Lemma IsRect_unique (S : Set2) (b1 b2 : Rect) : IsRect S b1 -> IsRect S b2 -> b1 = b2.
Proof.
  intros H1 H2.
  destruct H1 as [In1 [[y1 F1] [[y2 F2] [[x1 F3] [x2 F4]]]]].
  destruct H2 as [In2 [[y3 G1] [[y4 G2] [[x3 G3] [x4 G4]]]]].
  pose proof (In1 _ _ G1) as A1. pose proof (In1 _ _ G2) as A2.
  pose proof (In1 _ _ G3) as A3. pose proof (In1 _ _ G4) as A4.
  pose proof (In2 _ _ F1) as B1. pose proof (In2 _ _ F2) as B2.
  pose proof (In2 _ _ F3) as B3. pose proof (In2 _ _ F4) as B4.
  destruct b1 as [[a1 c1] [d1 e1]], b2 as [[a2 c2] [d2 e2]]; simpl in *.
  f_equal; f_equal; lra.
Qed.

Lemma IsRect_scale (c : CrossSection) (b : Rect) (s : R) :
  0 <= s -> IsRect (denoteCS c) b -> IsRect (denoteCS (CSScale c (s, s))) (scaleRect s b).
Proof.
  intros Hs [Hin [[y1 F1] [[y2 F2] [[x1 F3] [x2 F4]]]]].
  unfold IsRect, scaleRect; simpl. split; [|split; [|split; [|split]]].
  - intros x y [x0 [y0 [Hc [-> ->]]]].
    destruct (Hin _ _ Hc) as [[Ha Hb] [Hc' Hd]].
    split; split; apply Rmult_le_compat_l; assumption.
  - exists (s * y1), (fst (rmin b)), y1. auto.
  - exists (s * y2), (fst (rmax b)), y2. auto.
  - exists (s * x1), x1, (snd (rmin b)). auto.
  - exists (s * x2), x2, (snd (rmax b)). auto.
Qed.

Lemma IsRect_translate (c : CrossSection) (b : Rect) (a e : R) :
  IsRect (denoteCS c) b -> IsRect (denoteCS (CSTranslate c (a, e))) (shiftRect a e b).
Proof.
  intros [Hin [[y1 F1] [[y2 F2] [[x1 F3] [x2 F4]]]]].
  unfold IsRect, shiftRect; simpl. split; [|split; [|split; [|split]]].
  - intros x y Hc. destruct (Hin _ _ Hc) as [[Ha Hb] [Hc' Hd]]. split; split; lra.
  - exists (y1 + e). replace (fst (rmin b) + a - a) with (fst (rmin b)) by ring.
    replace (y1 + e - e) with y1 by ring. exact F1.
  - exists (y2 + e). replace (fst (rmax b) + a - a) with (fst (rmax b)) by ring.
    replace (y2 + e - e) with y2 by ring. exact F2.
  - exists (x1 + a). replace (snd (rmin b) + e - e) with (snd (rmin b)) by ring.
    replace (x1 + a - a) with x1 by ring. exact F3.
  - exists (x2 + a). replace (snd (rmax b) + e - e) with (snd (rmax b)) by ring.
    replace (x2 + a - a) with x2 by ring. exact F4.
Qed.

End ScaleFacts.

Section Scaling.
Import Geom CrossSectionUtils ScaleFacts.
Context `{Env}.

(** C5 (amended): when the width or the height of [crossSection.bounds()]
    is zero, [scaleToSizeAndCenter] returns its input.  Otherwise, for
    non-negative targets and bounds that the kernel reports exactly (for
    the input and for the scaled shape), the result is the input scaled
    uniformly by [s = Math.min(targetWidth / currentWidth,
    targetHeight / currentHeight)] and then translated; its exact bounding
    box is centred at the origin, has width [s * currentWidth] and height
    [s * currentHeight], both within their targets, and the dimension
    whose ratio is the smaller one equals its target exactly.  For a
    negative target, no dimension of any bounding box of the result
    equals it. *)
Theorem scaleToSizeAndCenter_spec (cs : CrossSection) (tw th : R) :
  let b0 := cs_bounds cs in
  ((rectWidth b0 = 0 \/ rectHeight b0 = 0) -> scaleToSizeAndCenter cs tw th = cs) /\
  (rectWidth b0 <> 0 -> rectHeight b0 <> 0 -> 0 <= tw -> 0 <= th ->
   let s := Disk.Math_min (tw / rectWidth b0) (th / rectHeight b0) in
   IsRect (denoteCS cs) b0 ->
   IsRect (denoteCS (CSScale cs (s, s))) (cs_bounds (CSScale cs (s, s))) ->
   (exists off : Vec2, scaleToSizeAndCenter cs tw th = CSTranslate (CSScale cs (s, s)) off) /\
   exists b : Rect,
     IsRect (denoteCS (scaleToSizeAndCenter cs tw th)) b /\
     fst (rmin b) + fst (rmax b) = 0 /\ snd (rmin b) + snd (rmax b) = 0 /\
     rectWidth b = s * rectWidth b0 /\ rectHeight b = s * rectHeight b0 /\
     rectWidth b <= tw /\ rectHeight b <= th /\
     (tw / rectWidth b0 <= th / rectHeight b0 -> rectWidth b = tw) /\
     (th / rectHeight b0 <= tw / rectWidth b0 -> rectHeight b = th)) /\
  (forall b : Rect, IsRect (denoteCS (scaleToSizeAndCenter cs tw th)) b ->
     (tw < 0 -> rectWidth b <> tw) /\ (th < 0 -> rectHeight b <> th)).
Proof.
  cbv zeta. split; [|split]; cycle 2.
  { intros b Hb. destruct (IsRect_le _ _ Hb) as [Lx Ly]. unfold rectWidth, rectHeight.
    split; intros Hn; lra. }
  all: unfold rectWidth, rectHeight.
  - intros Hz. unfold scaleToSizeAndCenter.
    destruct (Req_EM_T _ 0) as [_|Hw]; [reflexivity|].
    destruct (Req_EM_T _ 0) as [_|Hh]; [reflexivity|].
    destruct Hz; contradiction.
  - intros Hw Hh Htw Hth H0 Hs.
    set (x0 := fst (rmin (cs_bounds cs))) in *.
    set (x1 := fst (rmax (cs_bounds cs))) in *.
    set (y0 := snd (rmin (cs_bounds cs))) in *.
    set (y1 := snd (rmax (cs_bounds cs))) in *.
    destruct (IsRect_le _ _ H0) as [Lx Ly]. fold x0 x1 y0 y1 in Lx, Ly.
    assert (Pw : 0 < x1 - x0) by (destruct (Rle_lt_or_eq_dec _ _ Lx); [lra | exfalso; apply Hw; lra]).
    assert (Ph : 0 < y1 - y0) by (destruct (Rle_lt_or_eq_dec _ _ Ly); [lra | exfalso; apply Hh; lra]).
    set (s := Disk.Math_min (tw / (x1 - x0)) (th / (y1 - y0))) in *.
    assert (Rw : 0 <= tw / (x1 - x0)) by (unfold Rdiv; apply Rle_mult_inv_pos; assumption).
    assert (Rh : 0 <= th / (y1 - y0)) by (unfold Rdiv; apply Rle_mult_inv_pos; assumption).
    assert (S0 : 0 <= s) by (unfold s, Disk.Math_min; destruct (Rle_dec _ _); assumption).
    assert (Eb : cs_bounds (CSScale cs (s, s)) = scaleRect s (cs_bounds cs)).
    { apply (IsRect_unique (denoteCS (CSScale cs (s, s)))); [exact Hs|].
      apply IsRect_scale; assumption. }
    assert (Sw : s <= tw / (x1 - x0)) by apply Math_min_le_l.
    assert (Sh : s <= th / (y1 - y0)) by apply Math_min_le_r.
    assert (Ew : tw / (x1 - x0) * (x1 - x0) = tw) by (field; lra).
    assert (Eh : th / (y1 - y0) * (y1 - y0) = th) by (field; lra).
    unfold scaleToSizeAndCenter. cbv zeta. fold x0 x1 y0 y1.
    destruct (Req_EM_T (x1 - x0) 0) as [e|_]; [contradiction|].
    destruct (Req_EM_T (y1 - y0) 0) as [e|_]; [contradiction|].
    fold s. rewrite Eb.
    split; [eexists; reflexivity|].
    eexists. split; [apply IsRect_translate; apply IsRect_scale; [exact S0 | exact H0]|].
    unfold shiftRect, scaleRect; simpl. fold x0 x1 y0 y1.
    split; [field|]. split; [field|].
    split; [ring|]. split; [ring|].
    split; [nra|]. split; [nra|].
    split.
    + intros Hle. unfold s. rewrite (Math_min_l _ _ Hle).
      transitivity (tw / (x1 - x0) * (x1 - x0)); [ring | exact Ew].
    + intros Hle. unfold s.
      destruct (Rle_lt_or_eq_dec _ _ Hle) as [Hlt|Heq].
      * rewrite (Math_min_r _ _ Hlt). transitivity (th / (y1 - y0) * (y1 - y0)); [ring | exact Eh].
      * rewrite (Math_min_l _ _ (Req_le _ _ (eq_sym Heq))), <- Heq.
        transitivity (th / (y1 - y0) * (y1 - y0)); [ring | exact Eh].
Qed.

End Scaling.

Module ScaleChecks.
Import Geom CrossSectionUtils ScaleFacts Samples.

(** A 2 x 2 square centred on the origin: [okEnv] reports its bounds exactly. *)
Definition unitSquare : CrossSection := CSSquare (2, 2) true.

Definition unitRect : Rect := {| rmin := (-1, -1); rmax := (1, 1) |}.

Lemma unitSquare_rect : IsRect (denoteCS unitSquare) unitRect.
Proof.
  unfold IsRect, unitSquare, unitRect; simpl.
  split; [intros x y Hxy; lra|].
  split; [exists 0; lra|]. split; [exists 0; lra|].
  split; [exists 0; lra|]. exists 0; lra.
Qed.

Lemma unitSquare_flipped_rect : IsRect (denoteCS (CSScale unitSquare (-1, -1))) unitRect.
Proof.
  unfold IsRect, unitSquare, unitRect; simpl.
  split; [intros x y [x0 [y0 [Hxy [-> ->]]]]; lra|].
  split; [exists 0, 1, 0; lra|]. split; [exists 0, (-1), 0; lra|].
  split; [exists 0, 0, 1; lra|]. exists 0, 0, (-1); lra.
Qed.

Lemma okEnv_ratio (t : R) : t / (fst (rmax (@cs_bounds okEnv unitSquare))
                                 - fst (rmin (@cs_bounds okEnv unitSquare))) = t / 2.
Proof. simpl. f_equal. lra. Qed.

Lemma okEnv_ratio_y (t : R) : t / (snd (rmax (@cs_bounds okEnv unitSquare))
                                   - snd (rmin (@cs_bounds okEnv unitSquare))) = t / 2.
Proof. simpl. f_equal. lra. Qed.

Lemma Math_min_same (a : R) : Disk.Math_min a a = a.
Proof. unfold Disk.Math_min. destruct (Rle_dec a a); reflexivity. Qed.

Lemma scaleRect_one (b : Rect) : scaleRect 1 b = b.
Proof. destruct b as [[a c] [d e]]. unfold scaleRect; simpl. f_equal; f_equal; ring. Qed.

(** [scaleToSizeAndCenter] of the 2 x 2 square to 2 x 2 under [okEnv]:
    the theorem applies, and the result is exactly 2 wide. *)
Lemma scaleToSizeAndCenter_spec_witness :
  exists b : Rect, IsRect (denoteCS (@scaleToSizeAndCenter okEnv unitSquare 2 2)) b /\
                   rectWidth b = 2 /\ rectHeight b = 2.
Proof.
  pose proof (@scaleToSizeAndCenter_spec okEnv unitSquare 2 2) as T.
  cbv zeta in T. destruct T as [_ [T _]].
  unfold rectWidth, rectHeight in T. rewrite okEnv_ratio, okEnv_ratio_y, Math_min_same in T.
  assert (E1 : 2 / 2 = 1) by field. rewrite E1 in T.
  destruct T as [_ [b [Hb [_ [_ [Wb [Hb' _]]]]]]].
  - simpl. lra.
  - simpl. lra.
  - lra.
  - lra.
  - exact unitSquare_rect.
  - change (@cs_bounds okEnv (CSScale unitSquare (1, 1))) with unitRect.
    rewrite <- (scaleRect_one unitRect). apply IsRect_scale; [lra | exact unitSquare_rect].
  - exists b. split; [exact Hb|]. unfold rectWidth, rectHeight.
    rewrite Wb, Hb'. simpl. split; ring.
Defined.

(** Refutes C5 as stated (for every target size): with targets of -2,
    the square's bounds are exact and non-degenerate, the result has a
    bounding box, yet no bounding box of the result is -2 wide (a
    bounding box of a non-empty shape has a non-negative width). *)
Lemma scaleToSizeAndCenter_counterexample :
  let result := @scaleToSizeAndCenter okEnv unitSquare (-2) (-2) in
  rectWidth (@cs_bounds okEnv unitSquare) = 2 /\ rectHeight (@cs_bounds okEnv unitSquare) = 2 /\
  IsRect (denoteCS unitSquare) (@cs_bounds okEnv unitSquare) /\
  (exists b : Rect, IsRect (denoteCS result) b) /\
  (forall b : Rect, IsRect (denoteCS result) b -> rectWidth b <> -2).
Proof.
  cbv zeta.
  assert (Hr : exists b : Rect, IsRect (denoteCS (@scaleToSizeAndCenter okEnv unitSquare (-2) (-2))) b).
  { unfold scaleToSizeAndCenter. cbv zeta.
    match goal with |- context [Req_EM_T ?a 0] => destruct (Req_EM_T a 0) as [e|_] end;
      [simpl in e; lra|].
    match goal with |- context [Req_EM_T ?a 0] => destruct (Req_EM_T a 0) as [e|_] end;
      [simpl in e; lra|].
    rewrite okEnv_ratio, okEnv_ratio_y, Math_min_same.
    assert (E1 : -2 / 2 = -1) by field. rewrite E1.
    eexists. apply IsRect_translate. exact unitSquare_flipped_rect. }
  split; [unfold rectWidth; simpl; ring|].
  split; [unfold rectHeight; simpl; ring|].
  split; [exact unitSquare_rect|].
  split; [exact Hr|].
  intros b Hb. destruct (IsRect_le _ _ Hb) as [L _]. unfold rectWidth. lra.
Qed.

End ScaleChecks.

(** ** Extents of the parts of the flat layout (C6) *)

Module DiskFacts.
Import Geom.

Lemma sqrt_bound (x y r : R) : sqrt (x * x + y * y) <= r -> -r <= x <= r /\ -r <= y <= r.
Proof.
  intros Hs.
  assert (P : 0 <= sqrt (x * x + y * y)) by apply sqrt_pos.
  assert (Q : sqrt (x * x + y * y) * sqrt (x * x + y * y) = x * x + y * y)
    by (apply sqrt_sqrt; nra).
  split; split; nra.
Qed.

Lemma sqrt_on_axis (r : R) : 0 <= r -> sqrt (r * r + 0 * 0) = r /\ sqrt (0 * 0 + r * r) = r
                                      /\ sqrt (- r * - r + 0 * 0) = r /\ sqrt (0 * 0 + - r * - r) = r.
Proof.
  intros Hr.
  replace (r * r + 0 * 0) with (r * r) by ring.
  replace (0 * 0 + r * r) with (r * r) by ring.
  replace (- r * - r + 0 * 0) with (r * r) by ring.
  replace (0 * 0 + - r * - r) with (r * r) by ring.
  rewrite sqrt_square by lra. auto.
Qed.

Lemma clamped_bounds (rr h : R) :
  0 < h -> 0 <= rr -> 0 <= Disk.Math_min rr (h / 2) <= h / 2 /\ Disk.Math_min rr (h / 2) <= rr.
Proof. intros Hh Hrr. unfold Disk.Math_min. destruct (Rle_dec rr (h / 2)); lra. Qed.

(** Every point [(rho, z)] of the disk profile has [rho <= radius] and
    [0 <= z <= height]. *)
Lemma profile_within (r rr h : R) :
  0 < h -> 0 <= rr ->
  forall rho z, denoteCS (Disk.generateDiskProfile r rr h) rho z -> rho <= r /\ 0 <= z <= h.
Proof.
  intros Hh Hrr rho z.
  destruct (clamped_bounds rr h Hh Hrr) as [[M0 M1] _].
  unfold Disk.generateDiskProfile. cbv zeta.
  set (m := Disk.Math_min rr (h / 2)) in *. clearbody m.
  simpl. intros [[[[Hm Hc] | [Hm Hc]] | [[A B] [C D]]] | [[A B] [C D]]].
  - pose proof (Rle_0_sqr (rho - (r - m))). pose proof (Rle_0_sqr (z - m)).
    unfold Rsqr in *. split; [nra | split; nra].
  - pose proof (Rle_0_sqr (rho - (r - m))). pose proof (Rle_0_sqr (z - (h - m))).
    unfold Rsqr in *. split; [nra | split; nra].
  - split; [lra | split; lra].
  - split; [lra | split; lra].
Qed.

Lemma roundedDisk_within (r rr h : R) :
  0 < h -> 0 <= rr ->
  forall x y z, denoteM (Disk.roundedDisk r rr h) x y z -> -r <= x <= r /\ -r <= y <= r /\ 0 <= z <= h.
Proof.
  intros Hh Hrr x y z Hd. simpl in Hd.
  destruct (profile_within r rr h Hh Hrr _ _ Hd) as [Hr Hz].
  destruct (sqrt_bound x y r Hr). auto.
Qed.

(** The exact bounding box of [roundedDisk]. *)
Lemma roundedDisk_box (r rr h : R) :
  0 < r -> 0 < h -> 0 <= rr -> rr <= r ->
  IsBox (denoteM (Disk.roundedDisk r rr h)) {| bmin := (- r, - r, 0); bmax := (r, r, h) |}.
Proof.
  intros Hr Hh Hrr Hle.
  destruct (clamped_bounds rr h Hh Hrr) as [[M0 M1] M2].
  destruct (sqrt_on_axis r (Rlt_le _ _ Hr)) as (S1 & S2 & S3 & S4).
  assert (S0 : sqrt (0 * 0 + 0 * 0) = 0)
    by (replace (0 * 0 + 0 * 0) with 0 by ring; apply sqrt_0).
  assert (Side : denoteCS (Disk.generateDiskProfile r rr h) r (h / 2)).
  { unfold Disk.generateDiskProfile. cbv zeta. simpl. left. right. lra. }
  assert (Axis : forall z, 0 <= z <= h -> denoteCS (Disk.generateDiskProfile r rr h) 0 z).
  { intros z Hz. unfold Disk.generateDiskProfile. cbv zeta. simpl. right. lra. }
  unfold IsBox, InBox, v3x, v3y, v3z; simpl.
  split; [|split; [|split; [|split; [|split; [|split]]]]].
  - intros x y z Hd. apply (roundedDisk_within r rr h Hh Hrr) in Hd. exact Hd.
  - exists 0, (h / 2). rewrite S3. exact Side.
  - exists 0, (h / 2). rewrite S1. exact Side.
  - exists 0, (h / 2). rewrite S4. exact Side.
  - exists 0, (h / 2). rewrite S2. exact Side.
  - exists 0, 0. rewrite S0. apply Axis. lra.
  - exists 0, 0. rewrite S0. apply Axis. lra.
Qed.

(** The center disk, translated by [(0, a, 0)]. *)
Lemma centerDisk_within (c h a : R) :
  forall x y z, denoteM (MTranslate (Disk.generateCenterDisk c h) (0, a, 0)) x y z ->
  -c <= x <= c /\ a - c <= y <= a + c /\ 0 <= z <= h.
Proof.
  intros x y z Hd. simpl in Hd. destruct Hd as [_ [[Hc Hin] Hz]].
  pose proof (Rle_0_sqr (x - 0)). pose proof (Rle_0_sqr (y - a)). unfold Rsqr in *.
  split; [split; nra|]. split; [split; nra|]. lra.
Qed.

Lemma centerDisk_box (c h a : R) :
  0 < c -> 0 < h ->
  IsBox (denoteM (MTranslate (Disk.generateCenterDisk c h) (0, a, 0)))
        {| bmin := (- c, a - c, 0); bmax := (c, a + c, h) |}.
Proof.
  intros Hc Hh. unfold IsBox, InBox, v3x, v3y, v3z; simpl.
  split; [|split; [|split; [|split; [|split; [|split]]]]].
  - intros x y z Hd. apply (centerDisk_within c h a) in Hd. exact Hd.
  - exists a, 0. split; [lra | split; [split; [lra | nra] | lra]].
  - exists a, 0. split; [lra | split; [split; [lra | nra] | lra]].
  - exists 0, 0. split; [lra | split; [split; [lra | nra] | lra]].
  - exists 0, 0. split; [lra | split; [split; [lra | nra] | lra]].
  - exists 0, a. split; [lra | split; [split; [lra | nra] | lra]].
  - exists 0, a. split; [lra | split; [split; [lra | nra] | lra]].
Qed.

End DiskFacts.

Section Flat.
Context `{Env}.
Import JS Params Geom Assembly Steps BoxFacts DiskFacts CrossSectionUtils.

(** A marking that was generated is the sized pattern, extruded and
    trimmed by [roundDiskEdges]. *)
Lemma markingOf_ok (p : MakerChipParams) (l l1 : Log) (marking : Manifold) :
  markingOf p l = (Ok marking, l1) ->
  exists shape l0,
    Utils.parseSvgToCrossSection (markings p) Utils.defaultMaxError l = (Ok shape, l0) /\
    marking = Disk.roundDiskEdges
                (MExtrude (scaleToSizeAndCenter shape (radius p * 2 + 1 / 10) (radius p * 2 + 1 / 10))
                          (height p))
                (radius p) (roundingRadius p) (height p).
Proof.
  unfold markingOf, Marking.generateMarkingShape, bind.
  destruct (Utils.parseSvgToCrossSection (markings p) Utils.defaultMaxError l) as [[shape|e] l0].
  - unfold ret. intros E. injection E as <- _. eauto.
  - intros E. discriminate E.
Qed.

(** C6 (amended): in the ShapeSet of [assembleMakerchipShapes(params,
    'flat')] (which succeeds exactly when the marking is generated) the
    parts are, in order: the disk [roundedDisk(radius, roundingRadius,
    height)]; the generated marking translated by exactly
    [2 * radius + 1] along x; the center disk
    [generateCenterDisk(centerCircleRadius, height)] translated by exactly
    [2 * radius + 1] along y; then the QR code, if one was generated,
    translated by only [radius + qrSize / 2 + 1] along -x; and the image,
    if one was generated, translated by only
    [radius + imageHeight / 2 + 1] along -y.  For a positive radius and
    height, a non-negative rounding radius, a center circle radius below
    [radius + 0.95], and a pattern that the sizing step fits into the
    square of side [2 * radius + 0.1] centred on the origin, the exact
    bounding boxes of the disk, the translated marking and the translated
    center disk are pairwise disjoint.  (Nothing is stated for the QR and
    image parts: see the counterexample.) *)
Theorem flat_layout_core_parts_separated (p : MakerChipParams) (l l' : Log)
    (shapes : list Manifold) :
  assembleMakerchipShapes p "flat" l = (Ok shapes, l') ->
  exists marking q i l1 l2,
    markingOf p l = (Ok marking, l1) /\ qrOf p l1 = (Ok q, l2) /\ imageOf p l2 = (Ok i, l') /\
    shapes =
      [Disk.roundedDisk (radius p) (roundingRadius p) (height p);
       MTranslate marking (2 * radius p + 1, 0, 0);
       MTranslate (Disk.generateCenterDisk (centerCircleRadius p) (height p))
                  (0, 2 * radius p + 1, 0)]
      ++ match q with
         | Some qr =>
             let qrSize := match qrCodeSettings p with
                           | Some s => sizeOr18 (qr_size (settings_params s))
                           | None => 18
                           end in
             [MTranslate qr (- (radius p + qrSize / 2 + 1), 0, 0)]
         | None => []
         end
      ++ match i with
         | Some im =>
             let imageHeight := v3y (bmax (m_boundingBox im)) - v3y (bmin (m_boundingBox im)) in
             [MTranslate im (0, - (radius p + imageHeight / 2 + 1), 0)]
         | None => []
         end /\
    (0 < radius p -> 0 < height p -> 0 <= roundingRadius p ->
     centerCircleRadius p < radius p + 19 / 20 ->
     (forall l0 shape l3,
        Utils.parseSvgToCrossSection (markings p) Utils.defaultMaxError l0 = (Ok shape, l3) ->
        forall x y,
          denoteCS (scaleToSizeAndCenter shape (radius p * 2 + 1 / 10) (radius p * 2 + 1 / 10)) x y ->
          - (radius p + 1 / 20) <= x <= radius p + 1 / 20 /\
          - (radius p + 1 / 20) <= y <= radius p + 1 / 20) ->
     forall b1 b2 b3,
       IsBox (denoteM (Disk.roundedDisk (radius p) (roundingRadius p) (height p))) b1 ->
       IsBox (denoteM (MTranslate marking (2 * radius p + 1, 0, 0))) b2 ->
       IsBox (denoteM (MTranslate (Disk.generateCenterDisk (centerCircleRadius p) (height p))
                                  (0, 2 * radius p + 1, 0))) b3 ->
       ~ BoxesMeet b1 b2 /\ ~ BoxesMeet b1 b3 /\ ~ BoxesMeet b2 b3).
Proof.
  intros Hrun.
  apply assemble_ok_iff in Hrun. destruct Hrun as (marking & l1 & q & l2 & i & Hm & Hq & Hi & ->).
  exists marking, q, i, l1, l2.
  split; [exact Hm|]. split; [exact Hq|]. split; [exact Hi|].
  split; [unfold layoutFor; rewrite String.eqb_refl; reflexivity|].
  intros Hr Hh Hrr Hc Hpat b1 b2 b3 B1 B2 B3.
  destruct (markingOf_ok p l l1 marking Hm) as (shape & l0 & Hp & ->).
  assert (D : forall x y z, denoteM (Disk.roundedDisk (radius p) (roundingRadius p) (height p)) x y z ->
                            x <= radius p /\ y <= radius p).
  { intros x y z Hd. apply (roundedDisk_within _ _ _ Hh Hrr) in Hd. lra. }
  assert (Mk : forall x y z,
      denoteM (MTranslate (Disk.roundDiskEdges
                (MExtrude (scaleToSizeAndCenter shape (radius p * 2 + 1 / 10) (radius p * 2 + 1 / 10))
                          (height p))
                (radius p) (roundingRadius p) (height p)) (2 * radius p + 1, 0, 0)) x y z ->
      radius p + 19 / 20 <= x /\ y <= radius p + 1 / 20).
  { intros x y z Hd. simpl in Hd. destruct Hd as [[_ [Hs _]] _].
    apply (Hpat _ _ _ Hp) in Hs. lra. }
  assert (C : forall x y z,
      denoteM (MTranslate (Disk.generateCenterDisk (centerCircleRadius p) (height p))
                          (0, 2 * radius p + 1, 0)) x y z ->
      2 * radius p + 1 - centerCircleRadius p <= y).
  { intros x y z Hd. apply centerDisk_within in Hd. lra. }
  split; [|split].
  - apply (IsBox_separated_x _ _ _ _ (radius p + 19 / 20) B1 B2).
    + intros x y z Hd. apply D in Hd. lra.
    + intros x y z Hd. apply Mk in Hd. lra.
  - apply (IsBox_separated_y _ _ _ _ (2 * radius p + 1 - centerCircleRadius p) B1 B3).
    + intros x y z Hd. apply D in Hd. lra.
    + exact C.
  - apply (IsBox_separated_y _ _ _ _ (2 * radius p + 1 - centerCircleRadius p) B2 B3).
    + intros x y z Hd. apply Mk in Hd. lra.
    + exact C.
Qed.

End Flat.

Module FlatChecks.
Import JS Params Geom Assembly Steps Samples BoxFacts DiskFacts CrossSectionUtils.

(** The sample pattern, after the Y flip, fills [0, 1] x [-1, 0]. *)
Lemma flipped_square_inside (x y : R) :
  evenOddInside (map (fun polygon => map (fun '(x, y) => (x, - y)) polygon) squarePattern) x y ->
  0 <= x <= 1 /\ -1 <= y <= 0.
Proof.
  unfold evenOddInside, squarePattern, crossings, crossingsFrom, edgeCrosses. simpl.
  repeat match goal with |- context [Rlt_dec ?a ?b] => destruct (Rlt_dec a b) end;
    simpl; intros Hodd; try discriminate Hodd; unfold Rdiv in *; lra.
Qed.

Lemma okEnv_bounds (c : CrossSection) : @cs_bounds okEnv c = ScaleChecks.unitRect.
Proof. reflexivity. Qed.

(** Under [okEnv] the sized pattern of [makerChipV1] fits the square of
    side [2 * 20 + 0.1] centred on the origin. *)
Lemma okEnv_marking_fits (l0 : Log) (shape : CrossSection) (l1 : Log) :
  @Utils.parseSvgToCrossSection okEnv "makerChipV1" Utils.defaultMaxError l0 = (Ok shape, l1) ->
  forall x y,
    denoteCS (@scaleToSizeAndCenter okEnv shape (20 * 2 + 1 / 10) (20 * 2 + 1 / 10)) x y ->
    - (20 + 1 / 20) <= x <= 20 + 1 / 20 /\ - (20 + 1 / 20) <= y <= 20 + 1 / 20.
Proof.
  intros Hp x y Hs.
  unfold Utils.parseSvgToCrossSection, bind, ret in Hp. cbn in Hp.
  injection Hp as <- _.
  unfold scaleToSizeAndCenter in Hs. cbv zeta in Hs. rewrite !okEnv_bounds in Hs.
  unfold ScaleChecks.unitRect in Hs. cbn [fst snd rmin rmax] in Hs.
  destruct (Req_EM_T (1 - -1) 0) as [e|_]; [lra|].
  rewrite ScaleChecks.Math_min_same in Hs.
  simpl in Hs. destruct Hs as (x0 & y0 & Hin & Ex & Ey).
  apply flipped_square_inside in Hin.
  assert (E : (20 * 2 + 1 / 10) / (1 - -1) = 401 / 20) by field.
  rewrite E in Ex, Ey. lra.
Qed.

Lemma flat_layout_core_parts_separated_witness :
  exists shapes l',
    @assembleMakerchipShapes okEnv (chipParams 14 "flat" "makerChipV1" false false) "flat" []
      = (Ok shapes, l') /\
    exists marking,
      nth_error shapes 1 = Some (MTranslate marking (2 * 20 + 1, 0, 0)) /\
      forall b1 b2 b3,
        IsBox (denoteM (Disk.roundedDisk 20 1 3)) b1 ->
        IsBox (denoteM (MTranslate marking (2 * 20 + 1, 0, 0))) b2 ->
        IsBox (denoteM (MTranslate (Disk.generateCenterDisk 14 3) (0, 2 * 20 + 1, 0))) b3 ->
        ~ BoxesMeet b1 b2 /\ ~ BoxesMeet b1 b3 /\ ~ BoxesMeet b2 b3.
Proof.
  assert (E : exists shapes l',
             @assembleMakerchipShapes okEnv (chipParams 14 "flat" "makerChipV1" false false) "flat" []
               = (Ok shapes, l')) by (do 2 eexists; reflexivity).
  destruct E as (shapes & l' & E). exists shapes, l'. split; [exact E|].
  destruct (@flat_layout_core_parts_separated okEnv _ _ _ _ E)
    as (marking & q & i & l1 & l2 & _ & _ & _ & Hs & Hd).
  exists marking. split; [rewrite Hs; reflexivity|].
  apply Hd.
  - simpl. lra.
  - simpl. lra.
  - simpl. lra.
  - simpl. lra.
  - exact okEnv_marking_fits.
Defined.

Lemma roundedDisk_point : denoteM (Disk.roundedDisk 20 1 3) 0 15 1.
Proof.
  simpl. replace (0 * 0 + 15 * 15) with (15 * 15) by ring. rewrite sqrt_square by lra.
  destruct (clamped_bounds 1 3) as [[M0 M1] M2]; [lra | lra |].
  right. lra.
Qed.

(** Refutes C6 as stated: with the default chip and a QR code, the QR part
    is offset by [20 + 18 / 2 + 1 = 30 < 2 * 20 + 1] along x and not at all
    along y or z; and with a center circle of radius 30 (the parameter is
    unconstrained), the disk and the center disk share the point
    [(0, 15, 1)], so their bounding boxes (which exist) intersect. *)
Lemma flat_layout_counterexample :
  (exists shapes l',
     @assembleMakerchipShapes okEnv (chipParams 14 "flat" "makerChipV1" true false) "flat" []
       = (Ok shapes, l') /\
     nth_error shapes 3 = Some (MTranslate qrPlate (- (20 + sizeOr18 (Some 18) / 2 + 1), 0, 0)) /\
     sizeOr18 (Some 18) = 18 /\ 20 + 18 / 2 + 1 < 2 * 20 + 1) /\
  (exists shapes l',
     @assembleMakerchipShapes okEnv (chipParams 30 "flat" "makerChipV1" false false) "flat" []
       = (Ok shapes, l') /\
     exists disk centerDisk,
       nth_error shapes 0 = Some disk /\ nth_error shapes 2 = Some centerDisk /\
       (exists b, IsBox (denoteM disk) b) /\ (exists c, IsBox (denoteM centerDisk) c) /\
       forall b c, IsBox (denoteM disk) b -> IsBox (denoteM centerDisk) c -> BoxesMeet b c).
Proof.
  split.
  - do 2 eexists. split; [reflexivity|]. split; [reflexivity|].
    split; [unfold sizeOr18; destruct (Req_EM_T 18 0); lra | lra].
  - do 2 eexists. split; [reflexivity|].
    do 2 eexists. split; [reflexivity|]. split; [reflexivity|].
    split; [eexists; apply roundedDisk_box; simpl; lra|].
    split; [eexists; apply centerDisk_box; simpl; lra|].
    intros b c [Hb _] [Hc _].
    apply (boxes_meet_of_common_point _ _ b c 0 15 1 Hb Hc).
    + exact roundedDisk_point.
    + simpl. split; [lra | split; [split; lra | lra]].
Qed.

End FlatChecks.

(** ** Resolving a pattern name (C8) *)

Section Parse.
Context `{Env}.
Import JS Utils.

(** What [parseSvgToCrossSection] does once the guard lets [svgContent]
    through: sample, flip the Y axis, build and simplify. *)
Lemma parseSvgToCrossSection_truthy (shapeName : string) (maxError : R) (l : Log) :
  truthy (objectLookup embeddedSvgs shapeName) = true ->
  parseSvgToCrossSection shapeName maxError l =
    match svgToPolygons (objectLookup embeddedSvgs shapeName) maxError l with
    | (Ok polygons, l') =>
        (Ok (CSSimplify (CSPolygons (map (fun polygon => map (fun '(x, y) => (x, - y)) polygon)
                                         polygons)) maxError), l')
    | (Throw e, l') => (Throw e, l')
    end.
Proof.
  intros Ht. unfold parseSvgToCrossSection. rewrite Ht. change (negb true) with false.
  unfold bind, ret. cbv beta iota. destruct (svgToPolygons _ maxError l) as [[p|e] l']; reflexivity.
Qed.

(** C8 (divergence): ["toString"] is not a registered pattern, yet
    [embeddedSvgs["toString"]] is the inherited [Object.prototype.toString],
    which is truthy; so [parseSvgToCrossSection("toString")] never throws
    the unknown-shape error: it passes that function to the sampler and
    returns whatever the sampler makes of it (a cross-section, or the
    sampler's own error). *)
Theorem parseSvgToCrossSection_toString (maxError : R) (l : Log) :
  ~ In "toString"%string patternNames /\
  objectLookup embeddedSvgs "toString" = JFunction "toString" /\
  parseSvgToCrossSection "toString" maxError l =
    match svgToPolygons (JFunction "toString") maxError l with
    | (Ok polygons, l') =>
        (Ok (CSSimplify (CSPolygons (map (fun polygon => map (fun '(x, y) => (x, - y)) polygon)
                                         polygons)) maxError), l')
    | (Throw e, l') => (Throw e, l')
    end.
Proof.
  assert (Hl : objectLookup embeddedSvgs "toString" = JFunction "toString") by reflexivity.
  split; [simpl; intuition discriminate|]. split; [exact Hl|].
  rewrite parseSvgToCrossSection_truthy by (rewrite Hl; reflexivity).
  rewrite Hl. reflexivity.
Qed.

(** A name that is neither registered nor a property of
    [Object.prototype] fails with the error listing all 20 names. *)
Lemma parseSvgToCrossSection_unknown (shapeName : string) (maxError : R) (l : Log) :
  ~ In shapeName patternNames -> ~ In shapeName objectPrototypeMethods ->
  shapeName <> "__proto__"%string ->
  parseSvgToCrossSection shapeName maxError l =
    (Throw ("Unknown shape: " ++ shapeName ++ ". Available shapes: "
            ++ String.concat ", " patternNames)%string, l).
Proof.
  intros Hn Hp Hq.
  assert (Hl : objectLookup embeddedSvgs shapeName = JUndefined).
  { unfold objectLookup.
    destruct (find _ _) as [[k v]|] eqn:F.
    - exfalso. apply find_some in F. destruct F as [Hin Heq]. simpl in Heq.
      apply String.eqb_eq in Heq. subst k.
      unfold embeddedSvgs in Hin. apply in_map_iff in Hin. destruct Hin as (n & E & Hin').
      injection E as -> _. contradiction.
    - destruct (String.eqb_spec shapeName "__proto__"); [contradiction|].
      destruct (existsb (String.eqb shapeName) objectPrototypeMethods) eqn:X; [|reflexivity].
      apply existsb_exists in X. destruct X as (k & Hk & Ek).
      apply String.eqb_eq in Ek. subst k. contradiction. }
  unfold parseSvgToCrossSection. rewrite Hl. change (negb (truthy JUndefined)) with true.
  cbv beta iota. unfold objectKeys, embeddedSvgs. rewrite map_map. simpl map. reflexivity.
Qed.

(** A registered name whose SVG text is non-empty reaches the sampler. *)
Lemma parseSvgToCrossSection_registered (shapeName : string) (maxError : R) (l : Log) :
  In shapeName patternNames -> svgSource shapeName <> EmptyString ->
  objectLookup embeddedSvgs shapeName = JString (svgSource shapeName) /\
  truthy (objectLookup embeddedSvgs shapeName) = true.
Proof.
  intros Hin Hne.
  assert (Hl : objectLookup embeddedSvgs shapeName = JString (svgSource shapeName)).
  { unfold objectLookup, embeddedSvgs.
    simpl in Hin.
    repeat (destruct Hin as [<- | Hin]; [reflexivity|]). destruct Hin. }
  split; [exact Hl|]. rewrite Hl. simpl. destruct (String.eqb_spec (svgSource shapeName) EmptyString);
    [contradiction | reflexivity].
Qed.

End Parse.

(** ** Trimming the marking to the disk (C7) *)

Section Trim.
Import Geom.

(** A point of the trimmed marking lies in the rounded disk whenever the
    pattern point under it lies within the oversized cylinder of radius
    [radius + 10] used by [roundDiskEdges]. *)
Lemma roundDiskEdges_within (sized : CrossSection) (r rr h : R) :
  0 <= h ->
  forall x y z,
    (denoteCS sized x y -> sqrt (x * x + y * y) <= r + 10) ->
    denoteM (Disk.roundDiskEdges (MExtrude sized h) r rr h) x y z ->
    denoteM (Disk.roundedDisk r rr h) x y z.
Proof.
  intros Hh x y z Hin Hd. unfold Disk.roundDiskEdges in Hd. simpl in Hd.
  destruct Hd as [[_ [Hs Hz]] Hnot].
  destruct (classic (denoteM (Disk.roundedDisk r rr h) x y z)) as [Y|N]; [exact Y|].
  exfalso. apply Hnot. split; [|exact N].
  specialize (Hin Hs). split; [split; [apply sqrt_pos | exact Hin] | lra].
Qed.

(** A pattern point beyond that cylinder survives the trim, outside the
    rounded disk (whose points lie within [radius] of the axis). *)
Lemma roundDiskEdges_keeps_outside (sized : CrossSection) (r rr h : R) :
  0 < h -> 0 <= rr ->
  forall x y z,
    denoteCS sized x y -> r + 10 < sqrt (x * x + y * y) -> 0 <= z <= h ->
    denoteM (Disk.roundDiskEdges (MExtrude sized h) r rr h) x y z /\
    ~ denoteM (Disk.roundedDisk r rr h) x y z.
Proof.
  intros Hh Hrr x y z Hs Hfar Hz.
  assert (Nd : ~ denoteM (Disk.roundedDisk r rr h) x y z).
  { intros Hd. simpl in Hd. apply (DiskFacts.profile_within r rr h Hh Hrr) in Hd. lra. }
  split; [|exact Nd].
  unfold Disk.roundDiskEdges. simpl. split; [split; [exact Hh | split; [exact Hs | exact Hz]]|].
  intros [[[_ Hr] _] _]. lra.
Qed.

End Trim.

Module ParseChecks.
Import JS Utils Samples.

(** Under [okEnv], the unregistered name ["toString"] does not fail: it
    yields a cross-section. *)
Lemma parseSvgToCrossSection_toString_counterexample :
  ~ In "toString"%string patternNames /\
  exists cs l', @parseSvgToCrossSection okEnv "toString" defaultMaxError [] = (Ok cs, l').
Proof.
  split; [simpl; intuition discriminate|].
  do 2 eexists. reflexivity.
Qed.

End ParseChecks.

(* ------------------------------------------------------------------ *)
(** ** Decimal rendering and 3MF numbering *)

Module DecimalFacts.
Import JS.
Local Open Scope string_scope.

Lemma aux_fuel (f g n : nat) (acc : string) :
  (n <= f)%nat -> (n <= g)%nat -> natToStringAux (S f) n acc = natToStringAux (S g) n acc.
Proof.
  revert g n acc. induction f as [|f IH]; intros g n acc Hf Hg.
  - assert (n = 0)%nat by lia. subst n. reflexivity.
  - cbn [natToStringAux]. destruct (n <? 10)%nat eqn:E; [reflexivity|].
    apply Nat.ltb_ge in E.
    assert (D : (n / 10 < n)%nat) by (apply Nat.div_lt; lia).
    destruct g as [|g]; [lia|].
    apply IH; lia.
Qed.

Lemma string_append_empty_l (s : string) : EmptyString ++ s = s.
Proof. reflexivity. Qed.

Lemma string_app_assoc (a b c : string) : a ++ b ++ c = (a ++ b) ++ c.
Proof. induction a as [|ch a IH]; simpl; [reflexivity | now rewrite IH]. Qed.

Lemma aux_acc (f n : nat) (acc : string) :
  natToStringAux f n acc = natToStringAux f n EmptyString ++ acc.
Proof.
  revert n acc. induction f as [|f IH]; intros n acc; [reflexivity|].
  cbn [natToStringAux]. destruct (n <? 10)%nat; [reflexivity|].
  rewrite (IH _ (String _ acc)), (IH _ (String _ EmptyString)).
  rewrite <- string_app_assoc. reflexivity.
Qed.

Lemma natToString_step (n : nat) :
  natToString n =
    if (n <? 10)%nat then String (ascii_of_nat (48 + n mod 10)) EmptyString
    else natToString (n / 10) ++ String (ascii_of_nat (48 + n mod 10)) EmptyString.
Proof.
  unfold natToString. cbn [natToStringAux].
  destruct (n <? 10)%nat eqn:E; [reflexivity|].
  apply Nat.ltb_ge in E. rewrite aux_acc. f_equal.
  destruct n as [|n]; [lia|].
  apply aux_fuel; [|lia].
  assert (D : (S n / 10 < S n)%nat) by (apply Nat.div_lt; lia). lia.
Qed.

Lemma length_append (a b : string) : String.length (a ++ b) = (String.length a + String.length b)%nat.
Proof. induction a as [|ch a IH]; simpl; [reflexivity | now rewrite IH]. Qed.

Lemma natToString_nonempty (n : nat) : (1 <= String.length (natToString n))%nat.
Proof.
  rewrite natToString_step. destruct (n <? 10)%nat; simpl; [lia|].
  rewrite length_append. simpl. lia.
Qed.

Lemma snoc_inj (a b : string) (c d : ascii) :
  a ++ String c EmptyString = b ++ String d EmptyString -> a = b /\ c = d.
Proof.
  revert b. induction a as [|x a IH]; intros b E.
  - destruct b as [|y b]; simpl in E.
    + injection E as ->. auto.
    + injection E as -> E. destruct b; discriminate E.
  - destruct b as [|y b]; simpl in E.
    + injection E as -> E. destruct a; discriminate E.
    + injection E as -> E. destruct (IH b E) as [-> ->]. auto.
Qed.

Lemma digit_inj (a b : nat) :
  ascii_of_nat (48 + a mod 10) = ascii_of_nat (48 + b mod 10) -> a mod 10 = b mod 10.
Proof.
  intros E. apply (f_equal nat_of_ascii) in E.
  assert (a mod 10 < 10)%nat by (apply Nat.mod_upper_bound; lia).
  assert (b mod 10 < 10)%nat by (apply Nat.mod_upper_bound; lia).
  rewrite !nat_ascii_embedding in E by lia. lia.
Qed.

(** Decimal rendering is injective. *)
Lemma natToString_inj (a b : nat) : natToString a = natToString b -> a = b.
Proof.
  revert b. induction a as [a IH] using lt_wf_ind. intros b E.
  rewrite (natToString_step a), (natToString_step b) in E.
  destruct (a <? 10)%nat eqn:Ea, (b <? 10)%nat eqn:Eb.
  - apply Nat.ltb_lt in Ea, Eb. injection E as E. apply digit_inj in E.
    rewrite !Nat.mod_small in E by lia. exact E.
  - apply (f_equal String.length) in E. rewrite length_append in E. cbn [String.length] in E.
    pose proof (natToString_nonempty (b / 10)). lia.
  - apply (f_equal String.length) in E. rewrite length_append in E. cbn [String.length] in E.
    pose proof (natToString_nonempty (a / 10)). lia.
  - apply Nat.ltb_ge in Ea, Eb. apply snoc_inj in E. destruct E as [E1 E2].
    apply digit_inj in E2.
    assert (D : (a / 10 < a)%nat) by (apply Nat.div_lt; lia).
    apply IH in E1; [|exact D].
    rewrite (Nat.div_mod_eq a 10), (Nat.div_mod_eq b 10). lia.
Qed.

End DecimalFacts.

Module ThreeMfNumbering.
Import JS ThreeMf.

Lemma combine_seq_snd (l : list Manifold) (k : nat) :
  map (fun '(i, shape) => shape) (combine (seq k (List.length l)) l) = l.
Proof.
  revert k. induction l as [|m l IH]; intros k; simpl; [reflexivity|]. now rewrite IH.
Qed.

Lemma combine_seq_fst (l : list Manifold) (k : nat) (f : nat -> string) :
  map (fun '(i, shape) => f i) (combine (seq k (List.length l)) l) = map f (seq k (List.length l)).
Proof.
  revert k. induction l as [|m l IH]; intros k; simpl; [reflexivity|]. now rewrite IH.
Qed.

Lemma map_map_entries (l : list Manifold) :
  map mesh_id (map (fun '(i, shape) =>
                      {| mesh_id := natToString (i + 1); mesh_solid := shape;
                         mesh_name := ("Makerchip-Part-" ++ natToString (i + 1))%string |})
                   (combine (seq 0 (List.length l)) l))
  = map (fun i => natToString (i + 1)) (seq 0 (List.length l)) /\
  map mesh_solid (map (fun '(i, shape) =>
                      {| mesh_id := natToString (i + 1); mesh_solid := shape;
                         mesh_name := ("Makerchip-Part-" ++ natToString (i + 1))%string |})
                   (combine (seq 0 (List.length l)) l)) = l.
Proof.
  rewrite !map_map. split.
  - rewrite <- (combine_seq_fst l 0 (fun i => natToString (i + 1))).
    apply map_ext. intros [i s]. reflexivity.
  - rewrite <- (combine_seq_snd l 0) at 3. apply map_ext. intros [i s]. reflexivity.
Qed.

(** The 3MF package of [threeMfExport] numbers the parts [1 .. n] in the
    order of the ShapeSet, one mesh per shape; the part ids are pairwise
    distinct; the single assembly component has id [n + 1], which is no
    part's id, and lists the part ids in order as its children; the only
    build item is that component; and [model_settings.config] describes
    the same [n] parts. *)
Theorem packThreeMf_numbering (shapes : list Manifold) :
  exists model : ThreeMfModel,
    data (packThreeMf shapes) =
      [ModelXml "3D/3dmodel.model" model; ContentTypes; RelThumbnail "3D/3dmodel.model";
       TextFile "Metadata/model_settings.config" (generateModelSettingsConfig (List.length shapes))] /\
    map mesh_solid (tm_meshes model) = shapes /\
    map mesh_id (tm_meshes model) = map (fun i => natToString (i + 1)) (seq 0 (List.length shapes)) /\
    NoDup (map mesh_id (tm_meshes model)) /\
    tm_components model =
      [((List.length shapes + 1)%nat, map mesh_id (tm_meshes model), "Makerchip-Assembly"%string)] /\
    ~ In (natToString (List.length shapes + 1)) (map mesh_id (tm_meshes model)) /\
    tm_items model = [(List.length shapes + 1)%nat].
Proof.
  destruct (map_map_entries shapes) as [Hid Hsolid].
  eexists. unfold packThreeMf. cbv zeta.
  rewrite length_map, length_combine, length_seq, Nat.min_id.
  split; [reflexivity|]. cbn [tm_meshes tm_components tm_items].
  split; [exact Hsolid|]. split; [exact Hid|]. rewrite Hid.
  split; [|split; [reflexivity|split; [|reflexivity]]].
  - apply NoDup_map_NoDup_ForallPairs; [|apply seq_NoDup].
    intros a b _ _ E. apply DecimalFacts.natToString_inj in E. lia.
  - rewrite in_map_iff. intros (i & E & Hi). apply in_seq in Hi.
    apply DecimalFacts.natToString_inj in E. lia.
Qed.

End ThreeMfNumbering.

(* ------------------------------------------------------------------ *)
(** ** Extents of the disk parts *)

Module DiskExtent.
Import Geom DiskFacts.

Lemma sqrt_le_of_sq (x y b : R) : 0 <= b -> x * x + y * y <= b * b -> sqrt (x * x + y * y) <= b.
Proof.
  intros Hb Hs. rewrite <- (sqrt_square b Hb). apply sqrt_le_1_alt. exact Hs.
Qed.

(** [roundedDisk]: for a positive radius and height and a rounding radius
    in [[0, radius]], the exact bounding box is [[-r, r]^2 x [0, h]]; every
    point lies within [radius] of the axis; and the solid contains the
    whole cylinder of radius [radius - min(roundingRadius, height / 2)] and
    height [height]: only the outer rim is rounded. *)
Theorem roundedDisk_extent (r rr h : R) :
  0 < r -> 0 < h -> 0 <= rr -> rr <= r ->
  IsBox (denoteM (Disk.roundedDisk r rr h)) {| bmin := (- r, - r, 0); bmax := (r, r, h) |} /\
  (forall x y z, denoteM (Disk.roundedDisk r rr h) x y z -> sqrt (x * x + y * y) <= r /\ 0 <= z <= h) /\
  (forall x y z, sqrt (x * x + y * y) <= r - Disk.Math_min rr (h / 2) -> 0 <= z <= h ->
                 denoteM (Disk.roundedDisk r rr h) x y z).
Proof.
  intros Hr Hh Hrr Hle. split; [|split].
  - apply roundedDisk_box; assumption.
  - intros x y z Hd. exact (profile_within r rr h Hh Hrr _ _ Hd).
  - intros x y z Hs Hz. simpl. unfold Disk.generateDiskProfile. cbv zeta. simpl.
    right. pose proof (sqrt_pos (x * x + y * y)). lra.
Qed.

(** [generateCenterDisk]: for a positive radius [c] and a positive height
    [h] the exact bounding box is [[-c, c]^2 x [0, h]]; for [c <= 0] (an
    empty circle) or [h <= 0] (an empty extrusion) the center disk is
    empty. *)
Theorem generateCenterDisk_extent (c h : R) :
  (0 < c -> 0 < h -> IsBox (denoteM (Disk.generateCenterDisk c h))
                           {| bmin := (- c, - c, 0); bmax := (c, c, h) |}) /\
  (c <= 0 \/ h <= 0 -> forall x y z, ~ denoteM (Disk.generateCenterDisk c h) x y z).
Proof.
  split.
  - intros Hc Hh. unfold IsBox, InBox, v3x, v3y, v3z; simpl.
    split; [|split; [|split; [|split; [|split; [|split]]]]].
    + intros x y z [_ [[_ Hin] Hz]].
      pose proof (Rle_0_sqr x). pose proof (Rle_0_sqr y). unfold Rsqr in *.
      split; [split; nra|]. split; [split; nra|]. lra.
    + exists 0, 0. split; [lra | split; [split; [lra | nra] | lra]].
    + exists 0, 0. split; [lra | split; [split; [lra | nra] | lra]].
    + exists 0, 0. split; [lra | split; [split; [lra | nra] | lra]].
    + exists 0, 0. split; [lra | split; [split; [lra | nra] | lra]].
    + exists 0, 0. split; [lra | split; [split; [lra | nra] | lra]].
    + exists 0, 0. split; [lra | split; [split; [lra | nra] | lra]].
  - intros Hc x y z [Hh [[Hp _] _]]. lra.
Qed.

(** [roundDiskEdges] intersects: when every point of the original solid
    lies within the oversized cylinder it subtracts the rounded hole from
    (radius [radius + 10], heights [0 .. height + 10]), the result is
    exactly the part of the original inside [roundedDisk]. *)
Theorem roundDiskEdges_intersection (original : Manifold) (r rr h : R) :
  (forall x y z, denoteM original x y z -> sqrt (x * x + y * y) <= r + 10 /\ 0 <= z <= h + 10) ->
  forall x y z,
    denoteM (Disk.roundDiskEdges original r rr h) x y z <->
    denoteM original x y z /\ denoteM (Disk.roundedDisk r rr h) x y z.
Proof.
  intros Hin x y z. unfold Disk.roundDiskEdges. cbv zeta. cbn [denoteM].
  cbn [denoteCS]. split.
  - intros [Ho Hnot]. split; [exact Ho|].
    destruct (classic (denoteM (Disk.roundedDisk r rr h) x y z)) as [Y|N]; [exact Y|].
    exfalso. apply Hnot. split; [|exact N].
    destruct (Hin _ _ _ Ho) as [Hs Hz].
    split; [split; [apply sqrt_pos | exact Hs] | exact Hz].
  - intros [Ho Hd]. split; [exact Ho|]. intros [_ N]. exact (N Hd).
Qed.

End DiskExtent.

Section SizedMarking.
Context `{Env}.
Import JS Geom CrossSectionUtils ScaleFacts DiskFacts.

(** [scaleToSizeAndCenter] fits its target: for a non-degenerate input,
    non-negative targets and bounds that the kernel reports exactly, every
    point of the result lies in the rectangle
    [[-targetWidth / 2, targetWidth / 2] x [-targetHeight / 2, targetHeight / 2]]. *)
Theorem scaleToSizeAndCenter_fits (cs : CrossSection) (tw th : R) :
  let b0 := cs_bounds cs in
  let s := Disk.Math_min (tw / rectWidth b0) (th / rectHeight b0) in
  rectWidth b0 <> 0 -> rectHeight b0 <> 0 -> 0 <= tw -> 0 <= th ->
  IsRect (denoteCS cs) b0 ->
  IsRect (denoteCS (CSScale cs (s, s))) (cs_bounds (CSScale cs (s, s))) ->
  forall x y, denoteCS (scaleToSizeAndCenter cs tw th) x y ->
    - (tw / 2) <= x <= tw / 2 /\ - (th / 2) <= y <= th / 2.
Proof.
  cbv zeta. unfold rectWidth, rectHeight. intros Hw Hh Htw Hth H0 Hs.
  set (x0 := fst (rmin (cs_bounds cs))) in *.
  set (x1 := fst (rmax (cs_bounds cs))) in *.
  set (y0 := snd (rmin (cs_bounds cs))) in *.
  set (y1 := snd (rmax (cs_bounds cs))) in *.
  destruct (IsRect_le _ _ H0) as [Lx Ly]. fold x0 x1 y0 y1 in Lx, Ly.
  assert (Pw : 0 < x1 - x0) by (destruct (Rle_lt_or_eq_dec _ _ Lx); [lra | exfalso; apply Hw; lra]).
  assert (Ph : 0 < y1 - y0) by (destruct (Rle_lt_or_eq_dec _ _ Ly); [lra | exfalso; apply Hh; lra]).
  set (s := Disk.Math_min (tw / (x1 - x0)) (th / (y1 - y0))) in *.
  assert (Rw : 0 <= tw / (x1 - x0)) by (unfold Rdiv; apply Rle_mult_inv_pos; assumption).
  assert (Rh : 0 <= th / (y1 - y0)) by (unfold Rdiv; apply Rle_mult_inv_pos; assumption).
  assert (S0 : 0 <= s) by (unfold s, Disk.Math_min; destruct (Rle_dec _ _); assumption).
  assert (Eb : cs_bounds (CSScale cs (s, s)) = scaleRect s (cs_bounds cs)).
  { apply (IsRect_unique (denoteCS (CSScale cs (s, s)))); [exact Hs|].
    apply IsRect_scale; assumption. }
  assert (Sw : s <= tw / (x1 - x0)) by apply Math_min_le_l.
  assert (Sh : s <= th / (y1 - y0)) by apply Math_min_le_r.
  assert (Ew : tw / (x1 - x0) * (x1 - x0) = tw) by (field; lra).
  assert (Eh : th / (y1 - y0) * (y1 - y0) = th) by (field; lra).
  assert (Fw : s * (x1 - x0) <= tw) by nra.
  assert (Fh : s * (y1 - y0) <= th) by nra.
  unfold scaleToSizeAndCenter. cbv zeta. fold x0 x1 y0 y1.
  destruct (Req_EM_T (x1 - x0) 0) as [e|_]; [contradiction|].
  destruct (Req_EM_T (y1 - y0) 0) as [e|_]; [contradiction|].
  fold s. rewrite Eb. intros x y Hd.
  match type of Hd with
  | denoteCS (CSTranslate _ (?a, ?e)) _ _ =>
      destruct (IsRect_translate _ _ a e (IsRect_scale _ _ _ S0 H0)) as [Hin _]
  end.
  apply Hin in Hd. unfold shiftRect, scaleRect in Hd. simpl in Hd. fold x0 x1 y0 y1 in Hd.
  split; split; nra.
Qed.

(** [generateMarkingShape] stays inside the chip: for a radius in
    [(0, 23]], a positive height, a non-negative rounding radius, and a
    pattern that the sizing step fits into the square of side
    [2 * radius + 0.1] centred on the origin, every point of the marking
    it returns lies in [roundedDisk(radius, roundingRadius, height)]. *)
Theorem generateMarkingShape_inside_disk (shapeName : string) (r rr h : R) (l l' : Log)
    (marking : Manifold) :
  0 < r -> r <= 23 -> 0 < h -> 0 <= rr ->
  (forall l0 shape l1,
     Utils.parseSvgToCrossSection shapeName Utils.defaultMaxError l0 = (Ok shape, l1) ->
     forall x y,
       denoteCS (scaleToSizeAndCenter shape (r * 2 + 1 / 10) (r * 2 + 1 / 10)) x y ->
       - (r + 1 / 20) <= x <= r + 1 / 20 /\ - (r + 1 / 20) <= y <= r + 1 / 20) ->
  Marking.generateMarkingShape shapeName r rr h l = (Ok marking, l') ->
  forall x y z, denoteM marking x y z -> denoteM (Disk.roundedDisk r rr h) x y z.
Proof.
  intros Hr Hr23 Hh Hrr Hpat Hrun.
  unfold Marking.generateMarkingShape, bind in Hrun.
  destruct (Utils.parseSvgToCrossSection shapeName Utils.defaultMaxError l) as [[shape|e] l0] eqn:Hp;
    [|discriminate Hrun].
  unfold ret in Hrun. injection Hrun as <- _. cbv zeta.
  intros x y z Hd.
  apply (roundDiskEdges_within (scaleToSizeAndCenter shape (r * 2 + 1 / 10) (r * 2 + 1 / 10))
           r rr h (Rlt_le _ _ Hh) x y z); [|exact Hd].
  intros Hs. apply (Hpat _ _ _ Hp) in Hs. destruct Hs as [Hx Hy].
  apply DiskExtent.sqrt_le_of_sq; [lra|].
  assert (x * x <= (r + 1 / 20) * (r + 1 / 20)) by nra.
  assert (y * y <= (r + 1 / 20) * (r + 1 / 20)) by nra.
  nra.
Qed.

End SizedMarking.

(* ------------------------------------------------------------------ *)
(** ** Layout placement, the earlier assembly, [main] and name resolution *)

Section Placement.
Context `{Env}.
Import JS Params Geom Assembly Steps BoxFacts DiskFacts.

Lemma not_meet_sym (b c : Box) : ~ BoxesMeet b c -> ~ BoxesMeet c b.
Proof. intros N (x & y & z & A & B). apply N. exists x, y, z. auto. Qed.

(** Flat layout, QR part: the QR code is the fourth part, moved left by
    [radius + qrSize / 2 + 1] (with [qrSize] read from the QR settings,
    18 when they are missing).  If the QR solid reaches no further right
    than [qrSize / 2], every point of the placed QR part has
    [x <= -(radius + 1)]; if moreover the height is positive and the
    rounding radius non-negative, its bounding box does not meet the
    disk's. *)
Theorem flatLayout_qr_placement (p : MakerChipParams) (marking centerDisk qr : Manifold)
    (imageExtrude : option Manifold) :
  let qrSize := match qrCodeSettings p with
                | Some s => sizeOr18 (qr_size (settings_params s))
                | None => 18
                end in
  let disk := Disk.roundedDisk (radius p) (roundingRadius p) (height p) in
  let part := MTranslate qr (- (radius p + qrSize / 2 + 1), 0, 0) in
  nth_error (flatLayout p disk marking centerDisk (Some qr) imageExtrude) 3 = Some part /\
  ((forall x y z, denoteM qr x y z -> x <= qrSize / 2) ->
   (forall x y z, denoteM part x y z -> x <= - (radius p + 1)) /\
   (0 < height p -> 0 <= roundingRadius p ->
    forall b1 b2, IsBox (denoteM disk) b1 -> IsBox (denoteM part) b2 -> ~ BoxesMeet b1 b2)).
Proof.
  cbv zeta.
  set (qrSize := match qrCodeSettings p with
                 | Some s => sizeOr18 (qr_size (settings_params s))
                 | None => 18
                 end).
  split; [reflexivity|].
  intros Hq.
  assert (Px : forall x y z, denoteM (MTranslate qr (- (radius p + qrSize / 2 + 1), 0, 0)) x y z ->
                             x <= - (radius p + 1)).
  { intros x y z Hd. simpl in Hd. apply Hq in Hd. lra. }
  split; [exact Px|].
  intros Hh Hrr b1 b2 B1 B2. apply not_meet_sym.
  apply (IsBox_separated_x _ _ _ _ (- radius p - 1 / 2) B2 B1).
  - intros x y z Hd. apply Px in Hd. lra.
  - intros x y z Hd. apply (roundedDisk_within _ _ _ Hh Hrr) in Hd. lra.
Qed.

(** Flat layout, image part: the image is the last part, moved by
    [-(radius + h / 2 + 1)] along y, where [h] is the height of the
    image's reported bounding box.  When that box is exact, the placed
    part's box is the image's box shifted along y, with its top face at
    [(ymin + ymax) / 2 - (radius + 1)]; if moreover the height is positive,
    the rounding radius non-negative and the image not above its own x
    axis ([ymin + ymax <= 0]), the placed image's box does not meet the
    disk's. *)
Theorem flatLayout_image_placement (p : MakerChipParams) (marking centerDisk im : Manifold)
    (qrCode : option Manifold) :
  let b := m_boundingBox im in
  let ty := - (radius p + (v3y (bmax b) - v3y (bmin b)) / 2 + 1) in
  let disk := Disk.roundedDisk (radius p) (roundingRadius p) (height p) in
  let part := MTranslate im (0, ty, 0) in
  last (flatLayout p disk marking centerDisk qrCode (Some im)) disk = part /\
  (IsBox (denoteM im) b ->
   IsBox (denoteM part) (shiftBox b 0 ty 0) /\
   v3y (bmax (shiftBox b 0 ty 0)) = (v3y (bmin b) + v3y (bmax b)) / 2 - (radius p + 1) /\
   (0 < height p -> 0 <= roundingRadius p -> v3y (bmin b) + v3y (bmax b) <= 0 ->
    forall b1 b2, IsBox (denoteM disk) b1 -> IsBox (denoteM part) b2 -> ~ BoxesMeet b1 b2)).
Proof.
  cbv zeta.
  set (b := m_boundingBox im).
  set (ty := - (radius p + (v3y (bmax b) - v3y (bmin b)) / 2 + 1)).
  split.
  { unfold flatLayout. cbv zeta. fold b. fold ty.
    destruct qrCode as [qr|]; simpl; [destruct (qrCodeSettings p)|]; reflexivity. }
  intros Hb.
  assert (Bp : IsBox (denoteM (MTranslate im (0, ty, 0))) (shiftBox b 0 ty 0))
    by exact (IsBox_translate _ _ 0 ty 0 Hb).
  assert (Top : v3y (bmax (shiftBox b 0 ty 0)) = (v3y (bmin b) + v3y (bmax b)) / 2 - (radius p + 1)).
  { unfold shiftBox, ty, v3y at 1. simpl. fold (v3y (bmax b)). lra. }
  split; [exact Bp | split; [exact Top|]].
  intros Hh Hrr Hc b1 b2 B1 B2. apply not_meet_sym.
  apply (IsBox_separated_y _ _ _ _ (- radius p - 1 / 2) B2 B1).
  - intros x y z Hd. destruct Bp as [Hin _]. apply Hin in Hd.
    destruct Hd as (_ & [_ Hy] & _). lra.
  - intros x y z Hd. apply (roundedDisk_within _ _ _ Hh Hrr) in Hd. lra.
Qed.

Lemma reflect_x (x y z : R) :
  reflect (1, 0, 0) x y z = (- x, y, z).
Proof.
  unfold reflect.
  assert (D : 1 * 1 + 0 * 0 + 0 * 0 <> 0) by lra.
  f_equal; [f_equal|]; field; exact D.
Qed.

(** Printable layout, image part: the image is the last part, mirrored
    with normal [[1, 0, 0]], which reflects it in the plane [x = 0]
    ([(x, y, z)] is in the part exactly when [(-x, y, z)] is in the
    image).  Its y and z extents are unchanged, so the image is not
    turned upside down: its bounding box [[xmin, xmax] x Y x Z] becomes
    [[-xmax, -xmin] x Y x Z]. *)
Theorem printableLayout_image_mirror (p : MakerChipParams) (disk marking centerDisk im : Manifold)
    (qrCode : option Manifold) (b : Box) :
  IsBox (denoteM im) b ->
  last (printableLayout p disk marking centerDisk qrCode (Some im)) disk = MMirror im (1, 0, 0) /\
  (forall x y z, denoteM (MMirror im (1, 0, 0)) x y z <-> denoteM im (- x) y z) /\
  IsBox (denoteM (MMirror im (1, 0, 0)))
        {| bmin := (- v3x (bmax b), v3y (bmin b), v3z (bmin b));
           bmax := (- v3x (bmin b), v3y (bmax b), v3z (bmax b)) |}.
Proof.
  intros Hb.
  assert (M : forall x y z, denoteM (MMirror im (1, 0, 0)) x y z <-> denoteM im (- x) y z).
  { intros x y z. cbn [denoteM]. rewrite reflect_x. split.
    - intros [_ Hd]. exact Hd.
    - intros Hd. split; [lra | exact Hd]. }
  split; [|split; [exact M|]].
  - unfold printableLayout. destruct qrCode; reflexivity.
  - destruct Hb as (Hin & (y1 & z1 & H1) & (y2 & z2 & H2) & (x3 & z3 & H3) & (x4 & z4 & H4)
                    & (x5 & y5 & H5) & (x6 & y6 & H6)).
    unfold IsBox, InBox, v3x, v3y, v3z in *; cbn [bmin bmax fst snd] in *.
    split; [|split; [|split; [|split; [|split; [|split]]]]].
    + intros x y z Hd. apply M, Hin in Hd. lra.
    + exists y2, z2. apply M. rewrite Ropp_involutive. exact H2.
    + exists y1, z1. apply M. rewrite Ropp_involutive. exact H1.
    + exists (- x3), z3. apply M. rewrite Ropp_involutive. exact H3.
    + exists (- x4), z4. apply M. rewrite Ropp_involutive. exact H4.
    + exists (- x5), y5. apply M. rewrite Ropp_involutive. exact H5.
    + exists (- x6), y6. apply M. rewrite Ropp_involutive. exact H6.
Qed.

(** With the QR code and the image extrusion absent or disabled,
    [assembleMakerchipShapes] behaves exactly as the earlier version of
    part_002 did, for every assembly type: same result or error, and the
    same console log. *)
Theorem assemble_matches_earlier_version (p : MakerChipParams) (t : string) (l : Log) :
  (forall s, qrCodeSettings p = Some s -> enabled s = false) ->
  (forall s, imageExtrudeSettings p = Some s -> enabled s = false) ->
  assembleMakerchipShapes p t l = AssemblyV0.assembleMakerchipShapes p t l.
Proof.
  intros Hq Hi. unfold assembleMakerchipShapes, AssemblyV0.assembleMakerchipShapes.
  unfold bind.
  destruct (Marking.generateMarkingShape _ _ _ _ l) as [[marking|e] l1]; [|reflexivity].
  rewrite (proj2 (generateEmbedded_cases (qrCodeSettings p) qrCodeMaker
                    "Error generating QR code:" l1) Hq).
  rewrite (proj2 (generateEmbedded_cases (imageExtrudeSettings p) imageExtrudeMaker
                    "Error generating image extrude:" l1) Hi).
  reflexivity.
Qed.

(** [main] passes the [assemblyType] parameter through unchecked: for a
    value other than ["flat"] and ["printable"] it composes no shape at
    all, without an error, whenever the marking can be generated; it
    fails only with the marking's error. *)
Theorem main_other_assembly_type_empty (p : MakerChipParams) (l : Log) :
  (assemblyType p <> "flat")%string -> (assemblyType p <> "printable")%string ->
  (forall marking l1, markingOf p l = (Ok marking, l1) ->
     exists l', Main.main p l = (Ok (Main.Compose []), l')) /\
  (forall e l1, markingOf p l = (Throw e, l1) -> Main.main p l = (Throw e, l1)).
Proof.
  intros Hf Hp. unfold Main.main. cbv zeta. split.
  - intros marking l1 Hm.
    destruct (generateEmbedded_never_throws (qrCodeSettings p) qrCodeMaker
                "Error generating QR code:" l1) as (q & l2 & Hq).
    destruct (generateEmbedded_never_throws (imageExtrudeSettings p) imageExtrudeMaker
                "Error generating image extrude:" l2) as (i & l3 & Hi).
    assert (E : assembleMakerchipShapes p (assemblyType p) l = (Ok [], l3)).
    { apply assemble_ok_iff. exists marking, l1, q, l2, i.
      repeat split; auto. unfold layoutFor.
      apply String.eqb_neq in Hf. apply String.eqb_neq in Hp. rewrite Hf, Hp. reflexivity. }
    exists l3. unfold bind. rewrite E. reflexivity.
  - intros e l1 Hm. apply (proj2 (assemble_throws_iff p (assemblyType p) l l1 e)) in Hm.
    unfold bind. rewrite Hm. reflexivity.
Qed.

End Placement.

Section Resolution.
Context `{Env}.
Import JS Utils.

(** [parseSvgToCrossSection] resolves a pattern name in the registry.  A
    name that is not registered (and is no key of [Object.prototype])
    throws ["Unknown shape: <name>. Available shapes: <the 20 names,
    comma-separated>"] without touching the log.  A registered name whose
    SVG text is non-empty is sampled with [maxError], and the result is the
    sampled polygons with every y negated, simplified with [maxError]; an
    error of the sampler propagates unchanged. *)
Theorem parseSvgToCrossSection_resolution (shapeName : string) (maxError : R) (l : Log) :
  (~ In shapeName patternNames -> ~ In shapeName objectPrototypeMethods ->
   shapeName <> "__proto__"%string ->
   parseSvgToCrossSection shapeName maxError l =
     (Throw ("Unknown shape: " ++ shapeName ++ ". Available shapes: "
             ++ String.concat ", " patternNames)%string, l)) /\
  (In shapeName patternNames -> svgSource shapeName <> EmptyString ->
   parseSvgToCrossSection shapeName maxError l =
     match svgToPolygons (JString (svgSource shapeName)) maxError l with
     | (Ok polygons, l1) =>
         (Ok (CSSimplify (CSPolygons (map (fun polygon => map (fun '(x, y) => (x, - y)) polygon)
                                          polygons)) maxError), l1)
     | (Throw e, l1) => (Throw e, l1)
     end).
Proof.
  split.
  - apply parseSvgToCrossSection_unknown.
  - intros Hin Hne.
    destruct (parseSvgToCrossSection_registered shapeName maxError l Hin Hne) as [Hl Ht].
    unfold parseSvgToCrossSection. rewrite Ht. change (negb true) with false. cbv beta iota.
    rewrite Hl.
    unfold bind, ret. destruct (svgToPolygons _ _ l) as [[ps|e] l1]; reflexivity.
Qed.

End Resolution.

Module ExtraChecks.
Import JS Params Geom Assembly Steps Samples BoxFacts DiskFacts CrossSectionUtils ScaleFacts
       ScaleChecks FlatChecks Utils.

Lemma qrPlate_box : IsBox (denoteM qrPlate) plateBox.
Proof.
  unfold IsBox, InBox, plateBox, qrPlate, v3x, v3y, v3z; simpl.
  split; [intros x y z [_ [[Hx Hy] Hz]]; lra|].
  split; [exists 0, 0; lra|]. split; [exists 0, 0; lra|].
  split; [exists 0, 0; lra|]. split; [exists 0, 0; lra|].
  split; [exists 0, 0; lra|]. exists 0, 0; lra.
Qed.

Lemma roundedDisk_extent_witness :
  IsBox (denoteM (Disk.roundedDisk 20 1 3)) {| bmin := (- 20, - 20, 0); bmax := (20, 20, 3) |} /\
  denoteM (Disk.roundedDisk 20 1 3) 0 0 (3 / 2).
Proof.
  pose proof (DiskExtent.roundedDisk_extent 20 1 3 ltac:(lra) ltac:(lra) ltac:(lra) ltac:(lra))
    as (B & _ & C).
  split; [exact B|]. apply C; [|lra].
  replace (0 * 0 + 0 * 0) with 0 by ring. rewrite sqrt_0.
  destruct (clamped_bounds 1 3) as [[M0 M1] M2]; lra.
Defined.

Lemma generateCenterDisk_extent_witness :
  IsBox (denoteM (Disk.generateCenterDisk 14 3)) {| bmin := (- 14, - 14, 0); bmax := (14, 14, 3) |} /\
  ~ denoteM (Disk.generateCenterDisk 0 3) 0 0 1 /\
  ~ denoteM (Disk.generateCenterDisk 14 0) 0 0 0.
Proof.
  split; [|split].
  - apply (proj1 (DiskExtent.generateCenterDisk_extent 14 3)); lra.
  - apply (proj2 (DiskExtent.generateCenterDisk_extent 0 3)). left. lra.
  - apply (proj2 (DiskExtent.generateCenterDisk_extent 14 0)). right. lra.
Defined.

Lemma roundDiskEdges_intersection_witness :
  denoteM (Disk.roundDiskEdges (MExtrude unitSquare 3) 20 1 3) 1 1 1 <->
  denoteM (MExtrude unitSquare 3) 1 1 1 /\ denoteM (Disk.roundedDisk 20 1 3) 1 1 1.
Proof.
  apply DiskExtent.roundDiskEdges_intersection.
  intros x y z [_ [Hs Hz]]. unfold unitSquare in Hs. simpl in Hs. destruct Hs as [Hx Hy].
  split; [|lra]. apply DiskExtent.sqrt_le_of_sq; [lra|]. nra.
Defined.

Lemma roundDiskEdges_keeps_outside_witness :
  denoteM (Disk.roundDiskEdges (MExtrude (CSSquare (100, 2) true) 3) 20 1 3) 45 0 1 /\
  ~ denoteM (Disk.roundedDisk 20 1 3) 45 0 1.
Proof.
  apply (roundDiskEdges_keeps_outside (CSSquare (100, 2) true) 20 1 3); [lra | lra | simpl; lra | | lra].
  replace (45 * 45 + 0 * 0) with (45 * 45) by ring. rewrite sqrt_square by lra. lra.
Defined.

Lemma scaleToSizeAndCenter_fits_witness :
  denoteCS (@scaleToSizeAndCenter okEnv unitSquare 2 2) 1 1 /\
  (- (1) <= 1 <= 1 /\ - (1) <= 1 <= 1).
Proof.
  assert (Hd : denoteCS (@scaleToSizeAndCenter okEnv unitSquare 2 2) 1 1).
  { unfold scaleToSizeAndCenter. cbv zeta. rewrite !okEnv_bounds. unfold unitRect.
    cbn [fst snd rmin rmax].
    destruct (Req_EM_T (1 - -1) 0) as [e|_]; [lra|].
    rewrite Math_min_same. simpl. exists 1, 1. unfold unitSquare. simpl.
    assert (E : 2 / (1 - -1) = 1) by field. rewrite E. lra. }
  split; [exact Hd|].
  pose proof (@scaleToSizeAndCenter_fits okEnv unitSquare 2 2) as T.
  cbv zeta in T. unfold rectWidth, rectHeight in T.
  rewrite okEnv_ratio, okEnv_ratio_y, Math_min_same in T.
  assert (E1 : 2 / 2 = 1) by field. rewrite E1 in T.
  apply (T ltac:(simpl; lra) ltac:(simpl; lra) ltac:(lra) ltac:(lra) unitSquare_rect); [|exact Hd].
  change (@cs_bounds okEnv (CSScale unitSquare (1, 1))) with unitRect.
  rewrite <- (scaleRect_one unitRect). apply IsRect_scale; [lra | exact unitSquare_rect].
Defined.

Lemma generateMarkingShape_inside_disk_witness :
  exists marking l',
    @Marking.generateMarkingShape okEnv "makerChipV1" 20 1 3 [] = (Ok marking, l') /\
    forall x y z, denoteM marking x y z -> denoteM (Disk.roundedDisk 20 1 3) x y z.
Proof.
  do 2 eexists. split; [reflexivity|].
  eapply (@generateMarkingShape_inside_disk okEnv "makerChipV1" 20 1 3 []).
  - lra.
  - lra.
  - lra.
  - lra.
  - exact okEnv_marking_fits.
  - reflexivity.
Defined.

Lemma flatLayout_qr_placement_witness :
  let disk := Disk.roundedDisk 20 1 3 in
  let part := MTranslate qrPlate (- (20 + sizeOr18 (Some 18) / 2 + 1), 0, 0) in
  let b1 := {| bmin := (- 20, - 20, 0); bmax := (20, 20, 3) |} in
  let b2 := shiftBox plateBox (- (20 + sizeOr18 (Some 18) / 2 + 1)) 0 0 in
  IsBox (denoteM disk) b1 /\ IsBox (denoteM part) b2 /\ ~ BoxesMeet b1 b2.
Proof.
  cbv zeta.
  assert (B1 : IsBox (denoteM (Disk.roundedDisk 20 1 3)) {| bmin := (- 20, - 20, 0); bmax := (20, 20, 3) |})
    by (apply roundedDisk_box; lra).
  assert (B2 : IsBox (denoteM (MTranslate qrPlate (- (20 + sizeOr18 (Some 18) / 2 + 1), 0, 0)))
                     (shiftBox plateBox (- (20 + sizeOr18 (Some 18) / 2 + 1)) 0 0))
    by exact (IsBox_translate _ _ _ 0 0 qrPlate_box).
  split; [exact B1|]. split; [exact B2|].
  pose proof (@flatLayout_qr_placement okEnv (chipParams 14 "flat" "makerChipV1" true false)
                qrPlate qrPlate qrPlate None) as [_ T].
  apply (proj2 (T ltac:(intros x y z Hd; simpl in Hd; unfold sizeOr18; simpl;
                        destruct (Req_EM_T 18 0); lra))).
  - simpl. lra.
  - simpl. lra.
  - exact B1.
  - exact B2.
Defined.

Lemma flatLayout_image_placement_witness :
  let disk := Disk.roundedDisk 20 1 3 in
  let ty := - (20 + (v3y (bmax plateBox) - v3y (bmin plateBox)) / 2 + 1) in
  let b1 := {| bmin := (- 20, - 20, 0); bmax := (20, 20, 3) |} in
  IsBox (denoteM disk) b1 /\ IsBox (denoteM (MTranslate qrPlate (0, ty, 0))) (shiftBox plateBox 0 ty 0) /\
  ~ BoxesMeet b1 (shiftBox plateBox 0 ty 0).
Proof.
  cbv zeta.
  pose proof (@flatLayout_image_placement okEnv (chipParams 14 "flat" "makerChipV1" false true)
                qrPlate qrPlate qrPlate None) as [_ T].
  destruct (T qrPlate_box) as (B2 & _ & T').
  assert (B1 : IsBox (denoteM (Disk.roundedDisk 20 1 3)) {| bmin := (- 20, - 20, 0); bmax := (20, 20, 3) |})
    by (apply roundedDisk_box; lra).
  split; [exact B1|]. split; [exact B2|].
  apply T'; [simpl; lra | simpl; lra | unfold plateBox, v3y; simpl; lra | exact B1 | exact B2].
Defined.

Lemma printableLayout_image_mirror_witness :
  IsBox (denoteM (MMirror qrPlate (1, 0, 0)))
        {| bmin := (- v3x (bmax plateBox), v3y (bmin plateBox), v3z (bmin plateBox));
           bmax := (- v3x (bmin plateBox), v3y (bmax plateBox), v3z (bmax plateBox)) |}.
Proof.
  exact (proj2 (proj2 (@printableLayout_image_mirror okEnv
           (chipParams 14 "printable" "makerChipV1" false true) qrPlate qrPlate qrPlate qrPlate None
           plateBox qrPlate_box))).
Defined.

Lemma assemble_matches_earlier_version_witness :
  @assembleMakerchipShapes okEnv (chipParams 14 "flat" "makerChipV1" false false) "flat" [] =
  @AssemblyV0.assembleMakerchipShapes okEnv (chipParams 14 "flat" "makerChipV1" false false) "flat" [].
Proof.
  apply assemble_matches_earlier_version.
  - intros s E. simpl in E. injection E as <-. reflexivity.
  - intros s E. simpl in E. injection E as <-. reflexivity.
Defined.

Lemma main_other_assembly_type_empty_witness :
  exists l', @Main.main okEnv (chipParams 14 "stacked" "makerChipV1" false false) [] =
             (Ok (Main.Compose []), l').
Proof.
  destruct (@main_other_assembly_type_empty okEnv (chipParams 14 "stacked" "makerChipV1" false false) []
              ltac:(simpl; discriminate) ltac:(simpl; discriminate)) as [T _].
  eapply T. reflexivity.
Defined.

Lemma parseSvgToCrossSection_resolution_witness :
  @parseSvgToCrossSection okEnv "makerChipV99" defaultMaxError [] =
    (Throw ("Unknown shape: makerChipV99. Available shapes: " ++ String.concat ", " patternNames)%string,
     []) /\
  @parseSvgToCrossSection okEnv "makerChipV1" defaultMaxError [] =
    (Ok (CSSimplify (CSPolygons (map (fun polygon => map (fun '(x, y) => (x, - y)) polygon)
                                     squarePattern)) defaultMaxError), []).
Proof.
  split.
  - apply (proj1 (@parseSvgToCrossSection_resolution okEnv "makerChipV99" defaultMaxError [])).
    + intros Hn. simpl in Hn. repeat (destruct Hn as [Hn|Hn]; [discriminate Hn|]). exact Hn.
    + intros Hn. simpl in Hn. repeat (destruct Hn as [Hn|Hn]; [discriminate Hn|]). exact Hn.
    + discriminate.
  - rewrite (proj2 (@parseSvgToCrossSection_resolution okEnv "makerChipV1" defaultMaxError [])).
    + reflexivity.
    + simpl. auto.
    + simpl. discriminate.
Defined.

End ExtraChecks.
